(** * Wildfire detection cross-referencing: a shallow embedding

    This development embeds [lamprinidis_api_challenge.py] in Rocq and
    states the behaviour of its three pure stages:

    - [parse_fire_data]          (GeoJSON features to fire records),
    - [analyze_data]             (hour histogram, large fires, correlation),
    - [compare_detection_times]  (point-in-polygon and time comparison).

    Python values that come out of [json] are modelled by [pyobj]; Python
    floats are IEEE binary64 numbers, i.e. Rocq's primitive [float]; an
    exception is modelled by [None] in an [option] result.  Two library
    calls whose result depends on text parsing or on the summation order
    of a numerical library ([float] of a string, [Series.corr]) are fields
    of the record [pylib], so that every general statement holds whatever
    those calls return; [Pandas.corr] spells the coefficient out, up to the
    order of its reductions. *)

From Stdlib Require Import ZArith List String Ascii Bool Lia.
From Stdlib Require Import QArith Lqa Floats Sorted.
Import ListNotations.
Open Scope Z_scope.
Open Scope bool_scope.

(** ** Python objects *)

(** The values [json.load] / [response.json()] can produce. *)
#[local] Unset Elimination Schemes.
Inductive pyobj : Type :=
| PyNone
| PyBool (b : bool)
| PyInt (z : Z)
| PyFloat (f : float)
| PyStr (s : string)
| PyList (l : list pyobj)
| PyDict (kv : list (string * pyobj)).
#[local] Set Elimination Schemes.

(** A small exception monad: [None] is "an exception was raised". *)
Definition bind {A B : Type} (m : option A) (k : A -> option B) : option B :=
  match m with
  | Some a => k a
  | None => None
  end.

Notation "x <- m ;; k" := (bind m (fun x => k))
  (at level 61, m at next level, right associativity).

Module Py.

(** [bool(o)]: Python truthiness. *)
Definition truthy (o : pyobj) : bool :=
  match o with
  | PyNone => false
  | PyBool b => b
  | PyInt z => negb (z =? 0)
  | PyFloat f => negb (PrimFloat.eqb f 0)
  | PyStr s => negb (String.eqb s EmptyString)
  | PyList l => match l with [] => false | _ => true end
  | PyDict kv => match kv with [] => false | _ => true end
  end.

(** [o is None]. *)
Definition is_none (o : pyobj) : bool :=
  match o with
  | PyNone => true
  | _ => false
  end.

(** Lookup of a key in the entries of a dict. *)
Fixpoint dict_lookup (kv : list (string * pyobj)) (k : string) : option pyobj :=
  match kv with
  | [] => None
  | (k', v) :: kv' => if String.eqb k k' then Some v else dict_lookup kv' k
  end.

(** [o[k]] for a string key [k]: [KeyError] on a dict without the key,
    [TypeError] on every other JSON value. *)
Definition getitem (o : pyobj) (k : string) : option pyobj :=
  match o with
  | PyDict kv => dict_lookup kv k
  | _ => None
  end.

(** [o.get(k)]: [None] (the Python value) for a missing key,
    [AttributeError] when [o] is not a dict. *)
Definition get (o : pyobj) (k : string) : option pyobj :=
  match o with
  | PyDict kv =>
      Some (match dict_lookup kv k with
            | Some v => v
            | None => PyNone
            end)
  | _ => None
  end.

Definition is_str (k : string) (o : pyobj) : bool :=
  match o with
  | PyStr s => String.eqb s k
  | _ => false
  end.

(** [k in o] for a string [k]: key membership in a dict, element
    membership in a list, substring test in a string, [TypeError]
    otherwise. *)
Definition contains (o : pyobj) (k : string) : option bool :=
  match o with
  | PyDict kv => Some (match dict_lookup kv k with Some _ => true | None => false end)
  | PyList l => Some (existsb (is_str k) l)
  | PyStr s => Some (match String.index 0 k s with Some _ => true | None => false end)
  | _ => None
  end.

Fixpoint chars (s : string) : list pyobj :=
  match s with
  | EmptyString => []
  | String c s' => PyStr (String c EmptyString) :: chars s'
  end.

(** The elements [for x in o] / [tuple(o)] go through: the items of a
    list, the keys of a dict, the characters of a string; [TypeError]
    for the values that are not iterable. *)
Definition iterate (o : pyobj) : option (list pyobj) :=
  match o with
  | PyList l => Some l
  | PyDict kv => Some (map (fun e => PyStr (fst e)) kv)
  | PyStr s => Some (chars s)
  | _ => None
  end.

(** [len(o)]: defined on lists, dicts and strings, [TypeError] otherwise. *)
Definition len (o : pyobj) : option nat :=
  match o with
  | PyList l => Some (List.length l)
  | PyDict kv => Some (List.length kv)
  | PyStr s => Some (String.length s)
  | _ => None
  end.

(** [float(z)] for an int: the nearest binary64 number, ties to even;
    [OverflowError] when that is not finite. *)
Definition float_of_int (z : Z) : option float :=
  let f := SF2Prim (binary_normalize prec emax z 0 false) in
  if is_infinity f then None else Some f.

(** [a / b] for ints, [b > 0]: the correctly rounded quotient.  The
    quotient is computed with at least 56 significant bits and a sticky
    last bit, then rounded once; [OverflowError] when not finite. *)
Definition int_truediv (a b : Z) : option float :=
  let k := Z.max 0 (56 + Z.log2 b - Z.log2 (Z.abs a)) in
  let n := Z.abs a * 2 ^ k in
  let q := n / b in
  let sticky := if n mod b =? 0 then 0 else 1 in
  let m := 2 * q + sticky in
  let f := SF2Prim (binary_normalize prec emax (if a <? 0 then - m else m) (- k - 1) false) in
  if is_infinity f then None else Some f.

Definition int_of_bool (b : bool) : Z := if b then 1 else 0.

(** [o / d] for a positive int divisor [d]: defined on numbers
    ([bool] is a subclass of [int]), [TypeError] otherwise. *)
Definition truediv (o : pyobj) (d : Z) : option float :=
  match o with
  | PyBool b => int_truediv (int_of_bool b) d
  | PyInt z => int_truediv z d
  | PyFloat f => x <- float_of_int d ;; Some (PrimFloat.div f x)
  | _ => None
  end.

End Py.

(** ** Time *)

(** A timezone-aware [datetime] in UTC, as the number of microseconds
    since 1970-01-01T00:00:00Z.  Aware datetimes compare by instant. *)
Definition datetime : Type := Z.

Definition us_per_hour : Z := 3600000000.

(** [t.hour] for a UTC datetime. *)
Definition hour (t : datetime) : Z := (t / us_per_hour) mod 24.

(** [datetime.fromtimestamp(x, tz=timezone.utc)] as CPython computes it:
    the float is split into its integral and fractional parts, the
    fraction is scaled to microseconds in floating point and rounded half
    to even, and the instant must fall in the years 1 to 9999. *)
Module CPython.

(** The integral part of a float (rounded toward zero); [None] for NaN
    and the infinities. *)
Definition trunc (f : float) : option Z :=
  match Prim2SF f with
  | S754_zero _ => Some 0
  | S754_finite s m e =>
      let a := if 0 <=? e then Zpos m * 2 ^ e else Zpos m / 2 ^ (- e) in
      Some (if s then - a else a)
  | _ => None
  end.

Definition round_half_even (f : float) : option Z :=
  match Prim2SF f with
  | S754_zero _ => Some 0
  | S754_finite s m e =>
      let a :=
        if 0 <=? e then Zpos m * 2 ^ e
        else
          let d := 2 ^ (- e) in
          let q := Zpos m / d in
          match 2 * (Zpos m mod d) ?= d with
          | Lt => q
          | Gt => q + 1
          | Eq => if Z.even q then q else q + 1
          end in
      Some (if s then - a else a)
  | _ => None
  end.

(** 0001-01-01T00:00:00Z and 9999-12-31T23:59:59Z in seconds. *)
Definition min_sec : Z := -62135596800.
Definition max_sec : Z := 253402300799.

(** [None]: [ValueError] (NaN, year out of range) or [OverflowError]. *)
Definition fromtimestamp (x : float) : option datetime :=
  intpart <- trunc x ;;
  ip <- Py.float_of_int intpart ;;
  let floatpart := PrimFloat.mul (PrimFloat.sub x ip) 1000000 in
  us <- round_half_even floatpart ;;
  let '(sec, us') :=
    if 1000000 <=? us then (intpart + 1, us - 1000000)
    else if us <? 0 then (intpart - 1, us + 1000000)
    else (intpart, us) in
  if (min_sec <=? sec) && (sec <=? max_sec)
  then Some (sec * 1000000 + us')
  else None.

End CPython.

(** ** Library calls kept as parameters *)

Record pylib : Type := {
  (** [float(s)] for a string: the parsed number, or [ValueError]. *)
  float_of_str : string -> option float;
  (** [hours.corr(sizes)]: pandas' Pearson coefficient (a float, possibly
      NaN). *)
  series_corr : list Z -> list float -> float
}.

(** ** Parsing the public fire incidents *)

(** One entry of [fire_records]: the dict with keys ["coordinates"],
    ["detection_time"] and ["incident_size"]. *)
Record fire_record : Type := {
  coordinates : list pyobj;
  detection_time : datetime;
  incident_size : float
}.

(** How one iteration of the loop over the features ends when no exception
    is raised: a record is appended, or a [continue] is taken. *)
Inductive step : Type :=
| Append (r : fire_record)
| Continue.

Section Parser.

Variable L : pylib.

(** [float(o)]. *)
Definition py_float (o : pyobj) : option float :=
  match o with
  | PyFloat f => Some f
  | PyInt z => Py.float_of_int z
  | PyBool b => Py.float_of_int (Py.int_of_bool b)
  | PyStr s => float_of_str L s
  | _ => None
  end.

(** The body of the [try] block for one feature.  [None]: an exception
    was raised, which [except Exception] catches. *)
Definition try_feature (feature : pyobj) : option step :=
  geometry <- Py.getitem feature "geometry" ;;
  coords <- Py.getitem geometry "coordinates" ;;
  properties <- Py.getitem feature "properties" ;;
  discovery_ts <- Py.get properties "FireDiscoveryDateTime" ;;
  if Py.is_none discovery_ts then Some Continue else
  x <- Py.truediv discovery_ts 1000 ;;
  time <- CPython.fromtimestamp x ;;
  size <- Py.get properties "IncidentSize" ;;
  if Py.is_none size then Some Continue else
  coords_tuple <- Py.iterate coords ;;
  size_float <- py_float size ;;
  Some (Append {| coordinates := coords_tuple;
                  detection_time := time;
                  incident_size := size_float |}).

(** The loop [for feature in ...], threading [fire_records]. *)
Fixpoint parse_features (features : list pyobj) (fire_records : list fire_record)
  : list fire_record :=
  match features with
  | [] => fire_records
  | feature :: rest =>
      match try_feature feature with
      | Some (Append r) => parse_features rest (fire_records ++ [r])
      | Some Continue => parse_features rest fire_records
      | None => parse_features rest fire_records
      end
  end.

(** [parse_fire_data(geojson_data)].  [None]: an exception left the
    function (the guard and the loop header are outside the [try]). *)
Definition parse_fire_data (geojson_data : pyobj) : option (list fire_record) :=
  if negb (Py.truthy geojson_data) then Some []
  else
    has_features <- Py.contains geojson_data "features" ;;
    if negb has_features then Some []
    else
      value <- Py.getitem geojson_data "features" ;;
      features <- Py.iterate value ;;
      Some (parse_features features []).

End Parser.

(** ** Analysing the public fire incidents *)

(** The dict [analyze_data] returns. *)
Record analysis : Type := {
  dataframe : list (Z * float);
  most_common_hour : option Z;
  large_fire_count : Z;
  correlation : option float
}.

(** [np.corrcoef(x, y)[0, 1]] on two rows of binary64 numbers of the same
    length, as [numpy.cov] and [numpy.corrcoef] write it: the rows are
    centred on their means, the products of the centred rows are summed
    and scaled by [1 / (N - 1)], the covariance is divided by the square
    roots of the two variances in turn, and the quotient is clipped to
    [-1, 1].  Every operation is the binary64 one.  The two reductions (the
    sum behind [mean], the matrix product behind [dot]) are arguments: the
    order in which they add, and whether they fuse a product with a sum,
    is numpy's and the linear algebra library's choice. *)
Module Numpy.


Section Corrcoef.

Variable add_reduce : list float -> float.
Variable dot : list float -> list float -> float.






End Corrcoef.



End Numpy.

Module Pandas.

(** [df["hour"].value_counts().idxmax()], [(df["size"] > 1000).sum()].

    [value_counts] counts the values in one pass over them, keeping the
    keys in the order in which they are first seen, then sorts the rows by
    decreasing count.  The sort is taken to leave rows of equal count in
    place, as pandas does for tied counts; which of several tied hours
    [idxmax] returns rests on this order alone, never on the hour values. *)

(** The counting pass: a key seen for the first time is added after the
    keys already there, a key seen again has its count incremented. *)
Fixpoint bump (k : Z) (table : list (Z * nat)) : list (Z * nat) :=
  match table with
  | [] => [(k, 1%nat)]
  | (k', c) :: rest =>
      if k =? k' then (k', S c) :: rest else (k', c) :: bump k rest
  end.

Definition value_count (values : list Z) : list (Z * nat) :=
  fold_left (fun table k => bump k table) values [].

(** [sort_values(ascending=False)] on the counts: an insertion sort that
    moves a row only past rows of strictly larger count. *)
Fixpoint insert_desc (x : Z * nat) (s : list (Z * nat)) : list (Z * nat) :=
  match s with
  | [] => [x]
  | y :: s' => if (snd x <? snd y)%nat then y :: insert_desc x s' else x :: s
  end.

Fixpoint sort_values_desc (s : list (Z * nat)) : list (Z * nat) :=
  match s with
  | [] => []
  | x :: s' => insert_desc x (sort_values_desc s')
  end.

(** [Series.value_counts()]. *)
Definition value_counts (values : list Z) : list (Z * nat) :=
  sort_values_desc (value_count values).

Fixpoint argmax_from (best : Z * nat) (s : list (Z * nat)) : Z * nat :=
  match s with
  | [] => best
  | x :: s' => argmax_from (if (snd best <? snd x)%nat then x else best) s'
  end.

(** [Series.idxmax()]: the label of the first row holding the maximum
    (when several rows hold it, the first one is returned); [None] is the
    [ValueError] on an empty series. *)
Definition idxmax (s : list (Z * nat)) : option Z :=
  match s with
  | [] => None
  | x :: s' => Some (fst (argmax_from x s'))
  end.

(** [(column > threshold)]: the boolean mask. *)
Definition gt (column : list float) (threshold : float) : list bool :=
  map (fun x => PrimFloat.ltb threshold x) column.

(** [mask.sum()]. *)
Definition sum (mask : list bool) : Z :=
  fold_left (fun acc b => acc + Py.int_of_bool b) mask 0.


End Pandas.

Section Analysis.

Variable L : pylib.

Definition large_fire_threshold : float := 1000.

(** [analyze_data(fire_records)].  In [most_common_hour] and
    [correlation], [None] is the Python value [None]; [idxmax] is only
    called on a non-empty frame, where it does not raise
    ([idxmax_value_counts] below). *)
Definition analyze_data (fire_records : list fire_record) : analysis :=
  let hours := map (fun record => hour (detection_time record)) fire_records in
  let sizes := map incident_size fire_records in
  let df := combine hours sizes in
  {| dataframe := df;
     most_common_hour :=
       match df with
       | [] => None
       | _ => Pandas.idxmax (Pandas.value_counts (map fst df))
       end;
     large_fire_count := Pandas.sum (Pandas.gt (map snd df) large_fire_threshold);
     correlation :=
       if (1 <? List.length df)%nat
       then Some (series_corr L (map fst df) (map snd df))
       else None |}.

End Analysis.

(** ** Comparing detection times *)

(** One entry of [early_detected]. *)
Record early_record : Type := {
  early_coordinates : list pyobj;
  wfs_detection_time : datetime;
  official_time : datetime;
  early_incident_size : float
}.

Section Correlator.

(** The shapely side: the geometries, the points, the constructor
    [Point(coords)] ([None]: it raises) and [poly.contains(point)]. *)
Variables geometry point : Type.
Variable Point : list pyobj -> option point.
Variable contains : geometry -> point -> bool.

(** One entry of [wfs_records]. *)
Record wfs_record : Type := {
  polygon : geometry;
  wfs_time : datetime
}.

(** The test of the inner [if]. *)
Definition detected_earlier (fire_point : point) (official : datetime)
           (wfs : wfs_record) : bool :=
  contains (polygon wfs) fire_point && (wfs_time wfs <? official).

(** The inner loop [for wfs in wfs_records], with its [break]. *)
Fixpoint scan_polygons (record : fire_record) (fire_point : point)
         (wfs_records : list wfs_record) (early_detected : list early_record)
  : list early_record :=
  match wfs_records with
  | [] => early_detected
  | wfs :: rest =>
      if detected_earlier fire_point (detection_time record) wfs
      then early_detected ++
           [ {| early_coordinates := coordinates record;
                wfs_detection_time := wfs_time wfs;
                official_time := detection_time record;
                early_incident_size := incident_size record |} ]
      else scan_polygons record fire_point rest early_detected
  end.

(** The outer loop [for record in public_records]. *)
Fixpoint scan_records (public_records : list fire_record)
         (wfs_records : list wfs_record) (early_detected : list early_record)
  : option (list early_record) :=
  match public_records with
  | [] => Some early_detected
  | record :: rest =>
      fire_point <- Point (coordinates record) ;;
      scan_records rest wfs_records
        (scan_polygons record fire_point wfs_records early_detected)
  end.

(** [compare_detection_times(public_records, wfs_records)].  [None]:
    [Point] raised on the coordinates of some record. *)
Definition compare_detection_times (public_records : list fire_record)
           (wfs_records : list wfs_record) : option (list early_record) :=
  scan_records public_records wfs_records [].

End Correlator.

Arguments polygon {geometry} _.
Arguments wfs_time {geometry} _.

(** ** Planar containment

    [poly.contains(point)] follows the DE-9IM predicate: it holds when the
    point lies in the interior of the (multi)polygon; a point of the
    boundary is not contained.  The point is located against each ring by
    counting the crossings of a ray running from the point in the positive
    x direction, and is reported on the boundary as soon as it lies on a
    segment.  The ordinates of a point are binary64 numbers; positions
    are compared at their exact rational values, and the orientation test
    is exact. *)
Module Shapely.

(** A position of the plane, given exactly. *)
Definition vertex : Type := (Q * Q)%type.

Inductive location : Type :=
| Interior
| Boundary
| Exterior.

Definition Qlt_bool (x y : Q) : bool := negb (Qle_bool y x).

(** The sign of the cross product [(p2 - p1) x (q - p1)]: [Gt] when [q]
    is to the left of the directed line [p1 -> p2], [Lt] to its right,
    [Eq] on it. *)
Definition orientation_index (p1 p2 q : vertex) : comparison :=
  ((fst p2 - fst p1) * (snd q - snd p1) - (snd p2 - snd p1) * (fst q - fst p1) ?= 0)%Q.

Inductive crossing : Type :=
| OnSegment
| Crosses
| Misses.

(** One segment [p1 -> p2] of a ring against the ray from [p]. *)
Definition count_segment (p p1 p2 : vertex) : crossing :=
  if Qlt_bool (fst p1) (fst p) && Qlt_bool (fst p2) (fst p) then Misses
  else if Qeq_bool (fst p) (fst p2) && Qeq_bool (snd p) (snd p2) then OnSegment
  else if Qeq_bool (snd p1) (snd p) && Qeq_bool (snd p2) (snd p) then
    let '(minx, maxx) :=
      if Qlt_bool (fst p2) (fst p1) then (fst p2, fst p1) else (fst p1, fst p2) in
    if Qle_bool minx (fst p) && Qle_bool (fst p) maxx then OnSegment else Misses
  else if (Qlt_bool (snd p) (snd p1) && Qle_bool (snd p2) (snd p))
          || (Qlt_bool (snd p) (snd p2) && Qle_bool (snd p1) (snd p)) then
    match orientation_index p1 p2 p with
    | Eq => OnSegment
    | Gt => if Qlt_bool (snd p2) (snd p1) then Misses else Crosses
    | Lt => if Qlt_bool (snd p2) (snd p1) then Crosses else Misses
    end
  else Misses.

(** The segments of a ring in turn; the parity of the crossings decides
    between inside and outside. *)
Fixpoint count_ring (p : vertex) (ring : list vertex) (crossings : nat) : location :=
  match ring with
  | p1 :: rest =>
      match rest with
      | p2 :: _ =>
          match count_segment p p1 p2 with
          | OnSegment => Boundary
          | Crosses => count_ring p rest (S crossings)
          | Misses => count_ring p rest crossings
          end
      | [] => if Nat.odd crossings then Interior else Exterior
      end
  | [] => if Nat.odd crossings then Interior else Exterior
  end.

Definition locate_in_ring (p : vertex) (ring : list vertex) : location :=
  count_ring p ring 0.

(** A polygon: its exterior ring and the rings of its holes, each closed
    (the first vertex repeated at the end). *)
Record polygon : Type := {
  shell : list vertex;
  holes : list (list vertex)
}.

Fixpoint locate_in_holes (p : vertex) (hs : list (list vertex)) : location :=
  match hs with
  | [] => Interior
  | h :: hs' =>
      match locate_in_ring p h with
      | Boundary => Boundary
      | Interior => Exterior
      | Exterior => locate_in_holes p hs'
      end
  end.

Definition locate_in_polygon (p : vertex) (poly : polygon) : location :=
  match locate_in_ring p (shell poly) with
  | Interior => locate_in_holes p (holes poly)
  | Boundary => Boundary
  | Exterior => Exterior
  end.

(** A [Polygon] is a geometry of one part, a [MultiPolygon] of several. *)
Definition geometry : Type := list polygon.

Fixpoint locate (p : vertex) (g : geometry) : location :=
  match g with
  | [] => Exterior
  | poly :: g' =>
      match locate_in_polygon p poly with
      | Exterior => locate p g'
      | loc => loc
      end
  end.

(** The ordinates of a point as shapely stores them: two binary64
    numbers, which need not be finite. *)
Definition coord : Type := (float * float)%type.

(** The exact value of a finite binary64 number. *)
Definition Q_of_float (f : float) : option Q :=
  match Prim2SF f with
  | S754_zero _ => Some 0%Q
  | S754_finite s m e =>
      let v := (inject_Z (Zpos m) * Qpower 2 e)%Q in
      Some (if s then (- v)%Q else v)
  | _ => None
  end.

(** The position of a point, in lowest terms; none when an ordinate is
    NaN or infinite. *)
Definition exact (p : coord) : option vertex :=
  x <- Q_of_float (fst p) ;;
  y <- Q_of_float (snd p) ;;
  Some (Qred x, Qred y).

(** [g.contains(p)].  A point with a NaN or infinite ordinate lies within
    the envelope of no geometry, and is contained in none. *)
Definition contains (g : geometry) (p : coord) : bool :=
  match exact p with
  | Some v =>
      match locate v g with
      | Interior => true
      | _ => false
      end
  | None => false
  end.

(** [float(c)] on an item of the coordinate array: booleans and ints are
    rounded to binary64 (an int too large for it raises), floats are kept,
    NaN and the infinities included.  [None] and containers raise.  Text
    is not modelled and is rejected here. *)
Definition ordinate (o : pyobj) : option float :=
  match o with
  | PyBool b => Py.float_of_int (Py.int_of_bool b)
  | PyInt z => Py.float_of_int z
  | PyFloat f => Some f
  | _ => None
  end.

Fixpoint shape_eqb (s1 s2 : list nat) : bool :=
  match s1, s2 with
  | [], [] => true
  | d1 :: s1', d2 :: s2' => (d1 =? d2)%nat && shape_eqb s1' s2'
  | _, _ => false
  end.

(** [np.asarray(o)] on nested sequences: the shape of the array and its
    items in row-major order.  Sequences of unequal shapes raise. *)
Fixpoint asarray (o : pyobj) : option (list nat * list pyobj) :=
  match o with
  | PyList l =>
      match l with
      | [] => Some ([0%nat], [])
      | first :: rest =>
          head <- asarray first ;;
          tail <- (fix rows (l' : list pyobj) : option (list pyobj) :=
                     match l' with
                     | [] => Some []
                     | o' :: l'' =>
                         row <- asarray o' ;;
                         if shape_eqb (fst row) (fst head)
                         then (more <- rows l'' ;; Some (snd row ++ more))
                         else None
                     end) rest ;;
          Some (List.length l :: fst head, snd head ++ tail)
      end
  | _ => Some ([], [o])
  end.

(** [a.squeeze()]: the axes of length one are dropped. *)
Definition squeeze (shape : list nat) : list nat :=
  filter (fun d => negb (d =? 1)%nat) shape.

(** [Point(coords)] on one tuple: the tuple is made an array and squeezed,
    which must leave at most one axis, of two or three items; each item,
    a third one included, is converted to binary64.  The third ordinate is
    an elevation, which containment ignores. *)
Definition Point (coords : list pyobj) : option coord :=
  a <- asarray (PyList coords) ;;
  match squeeze (fst a) with
  | [] | [_] =>
      match snd a with
      | [x; y] =>
          fx <- ordinate x ;;
          fy <- ordinate y ;;
          Some (fx, fy)
      | [x; y; z] =>
          fx <- ordinate x ;;
          fy <- ordinate y ;;
          fz <- ordinate z ;;
          Some (fx, fy)
      | _ => None
      end
  | _ => None
  end.

End Shapely.

(** [compare_detection_times] on shapely geometries. *)
Definition compare_detection_times_shapely :=
  compare_detection_times Shapely.geometry Shapely.coord Shapely.Point Shapely.contains.

(** ** Fetching the public fire incidents *)

(** What the three network steps [requests.get], [raise_for_status] and
    [response.json()] come to: an exception of the classes the function
    catches ([requests.RequestException], or [ValueError] for a body that
    is not JSON), or the decoded body. *)
Inductive response : Type :=
| RequestFailed
| Body (geojson_data : pyobj).

Section Fetch.

(** The feature service, queried with the bounding polygon. *)
Variable request : pyobj -> response.

(** [fetch_fire_data(polygon)].  [Some None]: the function returns [None];
    [None]: an exception leaves it ([KeyError] and [TypeError] are not
    among the classes it catches). *)
Definition fetch_fire_data (polygon : pyobj) : option (option pyobj) :=
  match request polygon with
  | RequestFailed => Some None
  | Body geojson_data =>
      has_error <- Py.contains geojson_data "error" ;;
      if has_error then
        error <- Py.getitem geojson_data "error" ;;
        message <- Py.getitem error "message" ;;
        Some None
      else
        features <- Py.getitem geojson_data "features" ;;
        count <- Py.len features ;;
        Some (Some geojson_data)
  end.

End Fetch.

(** ** Parsing the satellite detections *)

Section WfsParser.

(** The library side: [shape(geometry)] of shapely and
    [datetime.fromisoformat(s).astimezone(timezone.utc)] ([None]: the call
    raises). *)
Variable geometry : Type.
Variable shape : pyobj -> option geometry.
Variable fromisoformat_utc : string -> option datetime.

(** How one iteration over the features ends when no exception is raised. *)
Inductive wfs_step : Type :=
| WfsAppend (r : wfs_record geometry)
| WfsContinue.

(** [datetime.fromisoformat] raises [TypeError] on anything but a string. *)
Definition detection_time_of (detection_str : pyobj) : option datetime :=
  match detection_str with
  | PyStr s => fromisoformat_utc s
  | _ => None
  end.

(** The body of the [try] block for one feature. *)
Definition try_wfs_feature (feature : pyobj) : option wfs_step :=
  geometry_value <- Py.getitem feature "geometry" ;;
  properties <- Py.getitem feature "properties" ;;
  poly <- shape geometry_value ;;
  detection_str <- Py.get properties "oldest_detection" ;;
  if Py.is_none detection_str then Some WfsContinue else
  time <- detection_time_of detection_str ;;
  Some (WfsAppend {| polygon := poly; wfs_time := time |}).

Fixpoint parse_wfs_features (features : list pyobj)
         (wfs_records : list (wfs_record geometry)) : list (wfs_record geometry) :=
  match features with
  | [] => wfs_records
  | feature :: rest =>
      match try_wfs_feature feature with
      | Some (WfsAppend r) => parse_wfs_features rest (wfs_records ++ [r])
      | Some WfsContinue => parse_wfs_features rest wfs_records
      | None => parse_wfs_features rest wfs_records
      end
  end.

(** [parse_wfs_data(geojson_data)]. *)
Definition parse_wfs_data (geojson_data : pyobj)
  : option (list (wfs_record geometry)) :=
  if negb (Py.truthy geojson_data) then Some []
  else
    has_features <- Py.contains geojson_data "features" ;;
    if negb has_features then Some []
    else
      value <- Py.getitem geojson_data "features" ;;
      features <- Py.iterate value ;;
      Some (parse_wfs_features features []).

End WfsParser.

Arguments WfsAppend {geometry} _.
Arguments WfsContinue {geometry}.

(** ** The main flow *)

(** What the last part of [main] prints. *)
Inductive report : Type :=
| EarlyDetected (fires : list early_record)
| NoEarlierDetection
| InsufficientData
| NoWfsData.

(** How a run of [main] ends: [exit(code)], an uncaught exception, or the
    end of the function. *)
Inductive run : Type :=
| Exit (code : Z)
| Crash
| Finished (r : report).

Definition or_crash {A : Type} (m : option A) (k : A -> run) : run :=
  match m with
  | Some a => k a
  | None => Crash
  end.

Notation "x <-! m ;; k" := (or_crash m (fun x => k))
  (at level 61, m at next level, right associativity).

(** [if l:] on a list. *)
Definition nonempty {A : Type} (l : list A) : bool :=
  match l with
  | [] => false
  | _ => true
  end.

Section Main.

Variable L : pylib.
Variable request : pyobj -> response.
(** [visualize_data(analysis_results)] draws; [None]: it raises. *)
Variable visualize_data : analysis -> option unit.
Variables geometry point : Type.
Variable shape : pyobj -> option geometry.
Variable fromisoformat_utc : string -> option datetime.
Variable Point : list pyobj -> option point.
Variable contains : geometry -> point -> bool.

(** [main()], after the command line is read.  The two files are given by
    what [json.load] makes of them, [None] when opening or decoding
    raises. *)
Definition main (bpoly_file wfs_file : option pyobj) : run :=
  match bpoly_file with
  | None => Exit 1
  | Some polygon =>
      has_rings <-! Py.contains polygon "rings" ;;
      if negb has_rings then Exit 2
      else
        public_geojson <-! fetch_fire_data request polygon ;;
        match public_geojson with
        | None => Exit 0
        | Some public_geojson =>
            public_records <-! parse_fire_data L public_geojson ;;
            shown <-! (if nonempty public_records
                       then visualize_data (analyze_data L public_records)
                       else Some tt) ;;
            let wfs_geojson :=
              match wfs_file with
              | Some data => data
              | None => PyNone
              end in
            count <-! (features <- Py.getitem wfs_geojson "features" ;;
                       Py.len features) ;;
            if Py.truthy wfs_geojson then
              wfs_records <-! parse_wfs_data geometry shape fromisoformat_utc
                                wfs_geojson ;;
              if nonempty public_records && nonempty wfs_records then
                early_detected <-! compare_detection_times geometry point Point
                                     contains public_records wfs_records ;;
                if nonempty early_detected
                then Finished (EarlyDetected early_detected)
                else Finished NoEarlierDetection
              else Finished InsufficientData
            else Finished NoWfsData
        end
  end.

End Main.

(** ** Specifications and sample data *)

Section CorrelatorSpec.

Variables geometry point : Type.
Variable contains : geometry -> point -> bool.

(** The entry recorded for a point matched with a polygon record. *)
Definition early_entry (record : fire_record) (wfs : wfs_record geometry)
  : early_record :=
  {| early_coordinates := coordinates record;
     wfs_detection_time := wfs_time wfs;
     official_time := detection_time record;
     early_incident_size := incident_size record |}.

(** Specification of the first-match policy: the entry for the first
    polygon record, in list order, that contains the point and was
    detected strictly earlier; nothing when there is none. *)
Definition first_qualifying_match (record : fire_record) (fire_point : point)
           (wfs_records : list (wfs_record geometry)) : list early_record :=
  match find (detected_earlier geometry point contains fire_point
                (detection_time record)) wfs_records with
  | Some wfs => [early_entry record wfs]
  | None => []
  end.

(** An entry was made from a given record. *)
Definition entry_of (record : fire_record) (entry : early_record) : Prop :=
  early_coordinates entry = coordinates record
  /\ official_time entry = detection_time record
  /\ early_incident_size entry = incident_size record.

End CorrelatorSpec.

Arguments early_entry {geometry} _ _.

(** A GeoJSON feature collection: a dict with the list of features under
    ["features"], beside any other members. *)
Definition feature_collection (members : list (string * pyobj))
           (features : list pyobj) : pyobj :=
  PyDict (("features"%string, PyList features) :: members).

(** A feature has no usable value under [key] of its properties: the
    properties are absent or not a dict, or the key is absent or null. *)
Definition missing_field (feature : pyobj) (key : string) : Prop :=
  forall properties value,
    Py.getitem feature "properties" = Some properties ->
    Py.get properties key = Some value ->
    value = PyNone.

(** The records one feature contributes. *)
Definition accepted (L : pylib) (feature : pyobj) : list fire_record :=
  match try_feature L feature with
  | Some (Append r) => [r]
  | _ => []
  end.

(** The number of occurrences of an hour among the hours of the records. *)
Definition occurrences (values : list Z) (k : Z) : nat :=
  count_occ Z.eq_dec values k.

(** [x] is the first row of [table] holding the largest count. *)
Definition first_max (table : list (Z * nat)) (x : Z * nat) : Prop :=
  exists before after,
    table = before ++ x :: after
    /\ (forall y, In y before -> (snd y < snd x)%nat)
    /\ (forall y, In y after -> (snd y <= snd x)%nat).

(** [table] holds the counts of [values]: one row per distinct value, with
    its number of occurrences, the rows in the order in which the values
    first appear. *)
Definition counts_of (values : list Z) (table : list (Z * nat)) : Prop :=
  NoDup (map fst table)
  /\ (forall k c, In (k, c) table -> c = occurrences values k)
  /\ (forall k, In k values -> In k (map fst table))
  /\ (forall before h c after,
        table = before ++ (h, c) :: after ->
        exists l1 l2,
          values = l1 ++ h :: l2
          /\ forall x, In x l1 -> In x (map fst before)).

(** The hours [analyze_data] puts in its data frame. *)
Definition hours_of (fire_records : list fire_record) : list Z :=
  map (fun record => hour (detection_time record)) fire_records.

(** [p] lies on the closed segment from [a] to [b]: it is collinear with
    the end points and within their bounding box. *)
Definition on_segment (p a b : Shapely.vertex) : Prop :=
  ((fst b - fst a) * (snd p - snd a) == (snd b - snd a) * (fst p - fst a)
   /\ ((fst a <= fst p /\ fst p <= fst b) \/ (fst b <= fst p /\ fst p <= fst a))
   /\ ((snd a <= snd p /\ snd p <= snd b) \/ (snd b <= snd p /\ snd p <= snd a)))%Q.

(** [p] lies on an edge of the ring, between two consecutive vertices. *)
Definition on_ring_edge (p : Shapely.vertex) (ring : list Shapely.vertex) : Prop :=
  exists i a b,
    nth_error ring i = Some a
    /\ nth_error ring (S i) = Some b
    /\ on_segment p a b.

(** The ring ends where it starts. *)
Definition closed_ring (ring : list Shapely.vertex) : Prop :=
  exists first middle last,
    ring = first :: middle ++ [last]
    /\ (fst first == fst last)%Q
    /\ (snd first == snd last)%Q.

(** [p] lies on an edge of the exterior ring of a part of [g], outside
    the parts listed before it. *)
Definition on_shell_edge (p : Shapely.vertex) (g : Shapely.geometry) : Prop :=
  exists before poly after,
    g = before ++ poly :: after
    /\ Forall (fun q => Shapely.locate_in_polygon p q = Shapely.Exterior) before
    /\ closed_ring (Shapely.shell poly)
    /\ on_ring_edge p (Shapely.shell poly).

(** The JSON values that are neither iterable nor subscriptable: null,
    booleans and numbers. *)
Definition is_scalar (o : pyobj) : bool :=
  match o with
  | PyNone | PyBool _ | PyInt _ | PyFloat _ => true
  | _ => false
  end.

(** [record] is what the parser makes of [feature]: the tuple of its
    coordinates, its timestamp in milliseconds turned into an instant, and
    its size turned into a float. *)
Definition parsed_from (L : pylib) (feature : pyobj) (record : fire_record) : Prop :=
  exists geometry coords properties ts x size,
    Py.getitem feature "geometry" = Some geometry
    /\ Py.getitem geometry "coordinates" = Some coords
    /\ Py.getitem feature "properties" = Some properties
    /\ Py.get properties "FireDiscoveryDateTime" = Some ts
    /\ Py.truediv ts 1000 = Some x
    /\ CPython.fromtimestamp x = Some (detection_time record)
    /\ Py.get properties "IncidentSize" = Some size
    /\ Py.iterate coords = Some (coordinates record)
    /\ py_float L size = Some (incident_size record).

(** The timestamp cannot be turned into an instant: it is text, a list or
    an object, or a float that is NaN or infinite. *)
Definition unusable_timestamp (ts : pyobj) : Prop :=
  match ts with
  | PyStr _ | PyList _ | PyDict _ => True
  | PyFloat f => Prim2SF f = S754_nan \/ exists s, Prim2SF f = S754_infinity s
  | _ => False
  end.

Section WfsSpec.

Variable geometry : Type.
Variable shape : pyobj -> option geometry.
Variable fromisoformat_utc : string -> option datetime.

(** The records one feature of the satellite feed contributes. *)
Definition wfs_accepted (feature : pyobj) : list (wfs_record geometry) :=
  match try_wfs_feature geometry shape fromisoformat_utc feature with
  | Some (WfsAppend r) => [r]
  | _ => []
  end.

(** [record] is what the parser makes of [feature]: the shape of its
    geometry and the instant its ["oldest_detection"] text denotes. *)
Definition wfs_parsed_from (feature : pyobj) (record : wfs_record geometry) : Prop :=
  exists geometry_value properties detection_str,
    Py.getitem feature "geometry" = Some geometry_value
    /\ Py.getitem feature "properties" = Some properties
    /\ shape geometry_value = Some (polygon record)
    /\ Py.get properties "oldest_detection" = Some (PyStr detection_str)
    /\ fromisoformat_utc detection_str = Some (wfs_time record).

End WfsSpec.

(** A runtime for the examples: none of them carries a number written as
    text, and none reads the value of the correlation coefficient. *)
Definition sample_lib : pylib :=
  {| float_of_str := fun _ => None;
     series_corr := fun _ _ => nan |}.


Module Sample.

Open Scope string_scope.

(** 2024-07-04 at 10:00, 12:00 and 14:00 UTC. *)
Definition t10 : datetime := 1720087200000000.
Definition t12 : datetime := 1720094400000000.
Definition t14 : datetime := 1720101600000000.

(** The box [-121, -119] x [38, 40]. *)
Definition box : Shapely.geometry :=
  [ {| Shapely.shell :=
         [(-121 # 1, 38 # 1); (-119 # 1, 38 # 1); (-119 # 1, 40 # 1);
          (-121 # 1, 40 # 1); (-121 # 1, 38 # 1)]%Q;
       Shapely.holes := [] |} ].

Definition box_at (t : datetime) : wfs_record Shapely.geometry :=
  {| polygon := box; wfs_time := t |}.

(** A fire of 50 acres reported at 12:00. *)
Definition fire_at (lon lat : float) : fire_record :=
  {| coordinates := [PyFloat lon; PyFloat lat];
     detection_time := t12;
     incident_size := 50 |}.

Definition inside_fire : fire_record := fire_at (-120) 39.
Definition edge_fire : fire_record := fire_at (-121) 39.

(** The points shapely builds for these two fires. *)
Definition point_of (record : fire_record) : Shapely.coord :=
  match Shapely.Point (coordinates record) with
  | Some p => p
  | None => (0, 0)%float
  end.

Definition inside_point : Shapely.coord := Eval vm_compute in point_of inside_fire.
Definition edge_point : Shapely.coord := Eval vm_compute in point_of edge_fire.

(** The position of the second one. *)
Definition edge_position : Shapely.vertex := (-121 # 1, 39 # 1)%Q.

(** A GeoJSON feature of the incident feed. *)
Definition feature (coords : pyobj) (properties : list (string * pyobj)) : pyobj :=
  PyDict [("type", PyStr "Feature");
          ("geometry", PyDict [("type", PyStr "Point"); ("coordinates", coords)]);
          ("properties", PyDict properties)].

Definition collection (features : list pyobj) : pyobj :=
  feature_collection [("type", PyStr "FeatureCollection")] features.

Definition lon_lat : pyobj := PyList [PyFloat (-120); PyFloat 39].

Definition good_feature (size : pyobj) : pyobj :=
  feature lon_lat [("FireDiscoveryDateTime", PyInt 1720094400000);
                   ("IncidentSize", size)].

Definition no_timestamp_feature : pyobj :=
  feature lon_lat [("IncidentSize", PyFloat 50)].

(** A feature whose coordinates are the rings of a polygon. *)
Definition rings : list pyobj :=
  [PyList [PyList [PyInt 0; PyInt 0]; PyList [PyInt 1; PyInt 0];
           PyList [PyInt 0; PyInt 1]; PyList [PyInt 0; PyInt 0]]].

Definition rings_feature : pyobj :=
  feature (PyList rings) [("FireDiscoveryDateTime", PyInt 1720094400000);
                          ("IncidentSize", PyFloat 50)].

(** A feature whose coordinates entry is a number. *)
Definition scalar_feature : pyobj :=
  feature (PyInt 5) [("FireDiscoveryDateTime", PyInt 1720094400000);
                     ("IncidentSize", PyFloat 50)].

(** A fire record known by its hour of the day and its size. *)
Definition incident (h : Z) (size : float) : fire_record :=
  {| coordinates := [PyFloat (-120); PyFloat 39];
     detection_time := t12 + (h - 12) * us_per_hour;
     incident_size := size |}.

(** A feature whose timestamp is a text. *)
Definition text_timestamp_feature : pyobj :=
  feature lon_lat [("FireDiscoveryDateTime", PyStr "2024-07-04");
                   ("IncidentSize", PyFloat 50)].

(** The bounding polygon handed to the feature service. *)
Definition bounding_polygon : pyobj :=
  PyDict [("rings", PyList [PyList [PyList [PyInt (-121); PyInt 38];
                                    PyList [PyInt (-119); PyInt 38];
                                    PyList [PyInt (-119); PyInt 40];
                                    PyList [PyInt (-121); PyInt 40];
                                    PyList [PyInt (-121); PyInt 38]]])].

(** A feature service that answers with one fire of 50 acres at
    (-120, 39), reported at 12:00. *)
Definition service (polygon : pyobj) : response :=
  Body (collection [good_feature (PyFloat 50)]).

(** A display that returns. *)
Definition display (results : analysis) : option unit := Some tt.

(** The part of [shape] the examples need: a GeoJSON [Polygon] whose rings
    are lists of pairs of numbers. *)
Definition ring_of (o : pyobj) : option (list Shapely.vertex) :=
  match o with
  | PyList positions =>
      fold_right (fun position rest =>
                    match position with
                    | PyList items =>
                        p <- Shapely.Point items ;;
                        v <- Shapely.exact p ;;
                        ring <- rest ;;
                        Some (v :: ring)
                    | _ => None
                    end) (Some []) positions
  | _ => None
  end.

Definition shape (o : pyobj) : option Shapely.geometry :=
  kind <- Py.getitem o "type" ;;
  coords <- Py.getitem o "coordinates" ;;
  match kind, coords with
  | PyStr "Polygon", PyList (outer :: inner) =>
      shell <- ring_of outer ;;
      holes <- fold_right (fun h rest =>
                             ring <- ring_of h ;;
                             rings <- rest ;;
                             Some (ring :: rings)) (Some []) inner ;;
      Some [ {| Shapely.shell := shell; Shapely.holes := holes |} ]
  | _, _ => None
  end.

(** The detection times the examples write, with the instants they
    denote. *)
Definition fromisoformat_utc (s : string) : option datetime :=
  if String.eqb s "2024-07-04T10:00:00+00:00" then Some t10
  else if String.eqb s "2024-07-04T14:00:00+00:00" then Some t14
  else None.

(** A feature of the satellite feed: the box, with its detection time. *)
Definition detection (properties : list (string * pyobj)) : pyobj :=
  PyDict [("type", PyStr "Feature");
          ("geometry",
           PyDict [("type", PyStr "Polygon");
                   ("coordinates",
                    PyList [PyList [PyList [PyInt (-121); PyInt 38];
                                    PyList [PyInt (-119); PyInt 38];
                                    PyList [PyInt (-119); PyInt 40];
                                    PyList [PyInt (-121); PyInt 40];
                                    PyList [PyInt (-121); PyInt 38]]])]);
          ("properties", PyDict properties)].

Definition detection_at_10 : pyobj :=
  detection [("oldest_detection", PyStr "2024-07-04T10:00:00+00:00")].

Definition undated_detection : pyobj := detection [].

End Sample.

(** * Properties *)

(** ** The correlator, for any geometry library *)

Section CorrelatorFacts.

Variables geometry point : Type.
Variable Point : list pyobj -> option point.
Variable contains : geometry -> point -> bool.

Abbreviation compare := (compare_detection_times geometry point Point contains).
Abbreviation scan_r := (scan_records geometry point Point contains).
Abbreviation scan_p := (scan_polygons geometry point contains).
Abbreviation earlier := (detected_earlier geometry point contains).
Abbreviation first_match := (first_qualifying_match geometry point contains).

Lemma scan_polygons_spec record fire_point wfs_records early_detected :
  scan_p record fire_point wfs_records early_detected
  = early_detected ++ first_match record fire_point wfs_records.
Proof.
  unfold first_qualifying_match.
  induction wfs_records as [|wfs rest IH]; simpl.
  - now rewrite app_nil_r.
  - destruct (earlier fire_point (detection_time record) wfs); [reflexivity|].
    exact IH.
Qed.

Lemma scan_records_acc public_records wfs_records early_detected :
  scan_r public_records wfs_records early_detected
  = option_map (app early_detected) (scan_r public_records wfs_records []).
Proof.
  revert early_detected.
  induction public_records as [|record rest IH]; intros acc; simpl.
  - now rewrite app_nil_r.
  - destruct (Point (coordinates record)) as [fire_point|]; simpl; [|reflexivity].
    rewrite IH, scan_polygons_spec.
    rewrite (IH (scan_p _ _ _ _)), scan_polygons_spec. simpl.
    destruct (scan_r rest wfs_records []) as [ms|]; simpl; [|reflexivity].
    now rewrite app_assoc.
Qed.

(** One turn of the outer loop. *)
Lemma compare_cons record rest wfs_records :
  compare (record :: rest) wfs_records
  = (fire_point <- Point (coordinates record) ;;
     later <- compare rest wfs_records ;;
     Some (first_match record fire_point wfs_records ++ later)).
Proof.
  unfold compare_detection_times. simpl.
  destruct (Point (coordinates record)) as [fire_point|]; simpl; [|reflexivity].
  rewrite scan_records_acc, scan_polygons_spec. simpl.
  now destruct (scan_r rest wfs_records []).
Qed.

Lemma first_match_length record fire_point wfs_records :
  (List.length (first_match record fire_point wfs_records) <= 1)%nat.
Proof.
  unfold first_qualifying_match.
  destruct (find _ wfs_records); simpl; lia.
Qed.

Lemma first_match_entry record fire_point wfs_records entry :
  In entry (first_match record fire_point wfs_records) ->
  entry_of record entry /\ wfs_detection_time entry < official_time entry.
Proof.
  unfold first_qualifying_match.
  destruct (find _ wfs_records) as [wfs|] eqn:Hfind; simpl; [|tauto].
  intros [<-|[]]. split; [repeat split|]. simpl.
  apply find_some in Hfind. destruct Hfind as [_ Hq].
  unfold detected_earlier in Hq.
  apply andb_true_iff in Hq. destruct Hq as [_ Hlt].
  now apply Z.ltb_lt.
Qed.

Lemma find_skip {A : Type} (f : A -> bool) (before after : list A) (x : A) :
  f x = false -> find f (before ++ x :: after) = find f (before ++ after).
Proof.
  intros Hx. induction before as [|y before IH]; simpl.
  - now rewrite Hx.
  - now destruct (f y).
Qed.

Lemma sorted_shift (idxs : list nat) :
  StronglySorted Nat.lt idxs -> StronglySorted Nat.lt (0%nat :: map S idxs).
Proof.
  intros Hs. constructor.
  - induction Hs as [|i idxs Hs IH Hi]; simpl; constructor; [exact IH|].
    rewrite Forall_forall in *. intros j Hj.
    apply in_map_iff in Hj. destruct Hj as [k [<- Hk]].
    apply Hi in Hk. unfold Nat.lt in *. lia.
  - apply Forall_forall. intros j Hj.
    apply in_map_iff in Hj. destruct Hj as [k [<- _]]. unfold Nat.lt. lia.
Qed.

Lemma sorted_tail (i : nat) (idxs : list nat) :
  StronglySorted Nat.lt (i :: idxs) -> StronglySorted Nat.lt idxs.
Proof. intros Hs. now inversion Hs. Qed.

(** C1 (amended): for every list of point records whose coordinates shapely
    accepts and every list of polygon records, each point is matched with
    the first polygon record, in list order, that both contains the point
    and was detected strictly earlier; polygon records failing either test
    are passed over and the later ones are still tried, so a point yields
    nothing only when no polygon record passes both tests. *)
Theorem first_qualifying_polygon_wins public_records wfs_records points :
  map (fun record => Point (coordinates record)) public_records = map Some points ->
  compare_detection_times geometry point Point contains public_records wfs_records
  = Some (flat_map (fun rp => first_qualifying_match geometry point contains
                                (fst rp) (snd rp) wfs_records)
                   (combine public_records points)).
Proof.
  revert points.
  induction public_records as [|record rest IH]; intros points Hpts.
  - reflexivity.
  - destruct points as [|fire_point points]; [discriminate|].
    simpl in Hpts. injection Hpts as Hp Hrest.
    rewrite compare_cons, Hp. simpl.
    now rewrite (IH points Hrest).
Qed.

(** Every recorded entry pairs an official time with a strictly earlier
    polygon detection time. *)
Lemma entries_are_strictly_earlier public_records wfs_records entries :
  compare public_records wfs_records = Some entries ->
  Forall (fun entry => wfs_detection_time entry < official_time entry) entries.
Proof.
  revert entries.
  induction public_records as [|record rest IH]; intros entries.
  - intros [= <-]. constructor.
  - rewrite compare_cons.
    destruct (Point (coordinates record)) as [fire_point|]; [simpl|discriminate].
    destruct (compare rest wfs_records) as [later|]; [simpl|discriminate].
    intros [= <-]. apply Forall_app. split; [|now apply IH].
    apply Forall_forall. intros entry Hin.
    now apply first_match_entry in Hin.
Qed.

(** C3: a polygon record whose detection time equals the detection time of
    a point record never yields a match for it: the comparison is strict.
    Removing such a polygon record from the list changes nothing for that
    point, and alone it gives the empty list. *)
Theorem equal_timestamps_never_match record wfs before after :
  wfs_time wfs = detection_time record ->
  compare_detection_times geometry point Point contains
    [record] (before ++ wfs :: after)
  = compare_detection_times geometry point Point contains
      [record] (before ++ after)
  /\ (forall fire_point,
         Point (coordinates record) = Some fire_point ->
         compare_detection_times geometry point Point contains [record] [wfs]
         = Some []).
Proof.
  intros Heq.
  assert (Hno : forall fire_point,
             earlier fire_point (detection_time record) wfs = false).
  { intros fire_point. unfold detected_earlier. rewrite Heq, Z.ltb_irrefl.
    apply andb_false_r. }
  split.
  - rewrite !compare_cons.
    destruct (Point (coordinates record)) as [fire_point|]; [simpl|reflexivity].
    unfold first_qualifying_match. now rewrite find_skip.
  - intros fire_point Hp. rewrite compare_cons, Hp. simpl.
    unfold first_qualifying_match. simpl. now rewrite Hno.
Qed.

(** C9: the entries follow the order of the point records and each point
    record gives at most one entry: the entries come from point records at
    strictly increasing positions of the input.  The call returns whenever
    shapely accepts the coordinates of every point record. *)
Theorem matches_follow_input_order public_records wfs_records :
  (Forall (fun record => Point (coordinates record) <> None) public_records ->
   compare_detection_times geometry point Point contains
     public_records wfs_records <> None)
  /\ (forall entries,
         compare_detection_times geometry point Point contains
           public_records wfs_records = Some entries ->
         exists idxs,
           StronglySorted Nat.lt idxs
           /\ Forall2 (fun i entry =>
                         exists record,
                           nth_error public_records i = Some record
                           /\ entry_of record entry) idxs entries).
Proof.
  induction public_records as [|record rest [IHret IHord]].
  - split; [discriminate|].
    intros entries [= <-]. exists []. split; constructor.
  - split.
    + intros Hall. inversion Hall as [|? ? Hp Hrest]; subst.
      rewrite compare_cons.
      destruct (Point (coordinates record)) as [fire_point|]; [simpl|congruence].
      specialize (IHret Hrest).
      destruct (compare rest wfs_records); [discriminate|congruence].
    + intros entries. rewrite compare_cons.
      destruct (Point (coordinates record)) as [fire_point|]; [simpl|discriminate].
      destruct (compare rest wfs_records) as [later|]; [simpl|discriminate].
      intros [= <-].
      destruct (IHord later eq_refl) as [idxs [Hsorted Hfrom]].
      assert (Hshift : Forall2 (fun i entry =>
                                  exists r, nth_error (record :: rest) i = Some r
                                            /\ entry_of r entry)
                               (map S idxs) later).
      { clear - Hfrom. induction Hfrom; simpl; constructor; auto. }
      pose proof (first_match_length record fire_point wfs_records) as Hlen.
      destruct (first_match record fire_point wfs_records) as [|entry [|? ?]] eqn:Hm.
      * exists (map S idxs). split; [|exact Hshift].
        exact (sorted_tail _ _ (sorted_shift idxs Hsorted)).
      * exists (0%nat :: map S idxs). split; [now apply sorted_shift|].
        constructor; [|exact Hshift].
        exists record. split; [reflexivity|].
        apply (first_match_entry record fire_point wfs_records).
        rewrite Hm. now left.
      * simpl in Hlen. lia.
Qed.

End CorrelatorFacts.

(** Witness of C1 on the sample box: the 14:00 detection is passed over and
    the 10:00 detection, listed after it, is matched. *)
Lemma first_qualifying_polygon_wins_witness :
  compare_detection_times_shapely
    [Sample.inside_fire] [Sample.box_at Sample.t14; Sample.box_at Sample.t10]
  = Some [early_entry Sample.inside_fire (Sample.box_at Sample.t10)].
Proof.
  exact (first_qualifying_polygon_wins
           Shapely.geometry Shapely.coord Shapely.Point Shapely.contains
           [Sample.inside_fire] [Sample.box_at Sample.t14; Sample.box_at Sample.t10]
           [Sample.inside_point] eq_refl).
Defined.

(** Counterexample to C1 as stated: the first polygon record containing the
    point was not detected earlier, and the point is matched all the same,
    with the containing polygon record listed after it. *)
Lemma later_polygon_still_matches :
  Shapely.Point (coordinates Sample.inside_fire) = Some Sample.inside_point
  /\ Shapely.contains (polygon (Sample.box_at Sample.t14)) Sample.inside_point = true
  /\ (wfs_time (Sample.box_at Sample.t14) <? detection_time Sample.inside_fire) = false
  /\ compare_detection_times_shapely
       [Sample.inside_fire] [Sample.box_at Sample.t14; Sample.box_at Sample.t10]
     = Some [early_entry Sample.inside_fire (Sample.box_at Sample.t10)].
Proof. repeat split; vm_compute; reflexivity. Qed.

(** Witness of C3: a detection at 12:00 for a fire reported at 12:00. *)
Lemma equal_timestamps_never_match_witness :
  compare_detection_times_shapely
    [Sample.inside_fire] ([] ++ Sample.box_at Sample.t12 :: [Sample.box_at Sample.t10])
  = compare_detection_times_shapely
      [Sample.inside_fire] ([] ++ [Sample.box_at Sample.t10])
  /\ (forall fire_point,
         Shapely.Point (coordinates Sample.inside_fire) = Some fire_point ->
         compare_detection_times_shapely [Sample.inside_fire] [Sample.box_at Sample.t12]
         = Some []).
Proof.
  exact (equal_timestamps_never_match
           Shapely.geometry Shapely.coord Shapely.Point Shapely.contains
           Sample.inside_fire (Sample.box_at Sample.t12) [] [Sample.box_at Sample.t10]
           eq_refl).
Defined.

(** ** The parser *)

Section ParserFacts.

Variable L : pylib.

Lemma parse_features_acc features fire_records :
  parse_features L features fire_records
  = fire_records ++ flat_map (accepted L) features.
Proof.
  revert fire_records.
  induction features as [|feature rest IH]; intros acc; simpl.
  - now rewrite app_nil_r.
  - unfold accepted at 1.
    destruct (try_feature L feature) as [[r|]|]; rewrite IH; simpl;
      [now rewrite <- app_assoc | reflexivity | reflexivity].
Qed.

(** On a feature collection the parser returns, with the records of the
    features in their order. *)
Lemma parse_collection members features :
  parse_fire_data L (feature_collection members features)
  = Some (flat_map (accepted L) features).
Proof.
  unfold parse_fire_data, feature_collection. simpl.
  now rewrite parse_features_acc.
Qed.

Lemma accepted_length features :
  (List.length (flat_map (accepted L) features) <= List.length features)%nat.
Proof.
  induction features as [|feature rest IH]; simpl; [lia|].
  rewrite length_app. unfold accepted at 1.
  destruct (try_feature L feature) as [[r|]|]; simpl; lia.
Qed.

Lemma missing_field_skipped feature :
  missing_field feature "FireDiscoveryDateTime"
  \/ missing_field feature "IncidentSize" ->
  accepted L feature = [].
Proof.
  unfold missing_field, accepted, try_feature. intros Hmiss.
  destruct (Py.getitem feature "geometry") as [geometry|]; [simpl|reflexivity].
  destruct (Py.getitem geometry "coordinates") as [coords|]; [simpl|reflexivity].
  destruct (Py.getitem feature "properties") as [properties|]; [simpl|reflexivity].
  destruct (Py.get properties "FireDiscoveryDateTime") as [ts|] eqn:Hts;
    [simpl|reflexivity].
  destruct (Py.is_none ts) eqn:Hnone; [reflexivity|].
  destruct (Py.truediv ts 1000) as [x|]; [simpl|reflexivity].
  destruct (CPython.fromtimestamp x) as [time|]; [simpl|reflexivity].
  destruct (Py.get properties "IncidentSize") as [size|] eqn:Hsize;
    [simpl|reflexivity].
  destruct (Py.is_none size) eqn:Hnone'; [reflexivity|].
  destruct Hmiss as [Hmiss|Hmiss].
  - rewrite (Hmiss properties ts eq_refl Hts) in Hnone. discriminate.
  - rewrite (Hmiss properties size eq_refl Hsize) in Hnone'. discriminate.
Qed.

(** Where an accepted record comes from. *)
Lemma accepted_origin feature record :
  In record (accepted L feature) ->
  exists geometry coords properties ts x size,
    Py.getitem feature "geometry" = Some geometry
    /\ Py.getitem geometry "coordinates" = Some coords
    /\ Py.getitem feature "properties" = Some properties
    /\ Py.get properties "FireDiscoveryDateTime" = Some ts
    /\ Py.truediv ts 1000 = Some x
    /\ CPython.fromtimestamp x = Some (detection_time record)
    /\ Py.get properties "IncidentSize" = Some size
    /\ Py.iterate coords = Some (coordinates record)
    /\ py_float L size = Some (incident_size record).
Proof.
  unfold accepted, try_feature.
  destruct (Py.getitem feature "geometry") as [geometry|]; [simpl|intros []].
  destruct (Py.getitem geometry "coordinates") as [coords|] eqn:Hc; [simpl|intros []].
  destruct (Py.getitem feature "properties") as [properties|]; [simpl|intros []].
  destruct (Py.get properties "FireDiscoveryDateTime") as [ts|] eqn:Hts;
    [simpl|intros []].
  destruct (Py.is_none ts); [intros []|].
  destruct (Py.truediv ts 1000) as [x|] eqn:Hx; [simpl|intros []].
  destruct (CPython.fromtimestamp x) as [time|] eqn:Ht; [simpl|intros []].
  destruct (Py.get properties "IncidentSize") as [size|] eqn:Hsize;
    [simpl|intros []].
  destruct (Py.is_none size); [intros []|].
  destruct (Py.iterate coords) as [coords_tuple|] eqn:Hit; [simpl|intros []].
  destruct (py_float L size) as [size_float|] eqn:Hf; [simpl|intros []].
  intros [<-|[]]. simpl.
  exists geometry, coords, properties, ts, x, size. repeat split; assumption.
Qed.

(** C5 (amended): the parser applies no sign check.  The [incident_size] of
    every record it returns is [float(v)] for the value [v] found under
    ["IncidentSize"] in the properties of one of the features, so that it
    is non-negative exactly when that conversion is. *)
Theorem incident_size_is_converted_input geojson_data records record :
  parse_fire_data L geojson_data = Some records ->
  In record records ->
  exists value features feature properties size,
    Py.getitem geojson_data "features" = Some value
    /\ Py.iterate value = Some features
    /\ In feature features
    /\ Py.getitem feature "properties" = Some properties
    /\ Py.get properties "IncidentSize" = Some size
    /\ py_float L size = Some (incident_size record).
Proof.
  unfold parse_fire_data.
  destruct (negb (Py.truthy geojson_data)); [intros [= <-] []|].
  destruct (Py.contains geojson_data "features") as [has|]; [simpl|discriminate].
  destruct (negb has); [intros [= <-] []|].
  destruct (Py.getitem geojson_data "features") as [value|] eqn:Hv;
    [simpl|discriminate].
  destruct (Py.iterate value) as [features|] eqn:Hfs; [simpl|discriminate].
  rewrite parse_features_acc. simpl. intros [= <-] Hin.
  apply in_flat_map in Hin. destruct Hin as [feature [Hfeat Hacc]].
  apply accepted_origin in Hacc.
  destruct Hacc as (g & c & properties & ts & x & size & _ & _ & Hp & _ & _ & _ & Hs & _ & Hf).
  exists value, features, feature, properties, size. repeat split; assumption.
Qed.

(** C6: a feature without a usable timestamp or size is skipped on its own.
    Parsing a feature collection always returns; the result is the same as
    without the defective feature; and when the two other features of a
    collection of three give a record each, exactly these two records are
    returned. *)
Theorem malformed_feature_is_skipped members before bad after :
  missing_field bad "FireDiscoveryDateTime" \/ missing_field bad "IncidentSize" ->
  parse_fire_data L (feature_collection members (before ++ bad :: after))
  = parse_fire_data L (feature_collection members (before ++ after))
  /\ (exists records,
         parse_fire_data L (feature_collection members (before ++ bad :: after))
         = Some records
         /\ (List.length records <= List.length (before ++ after))%nat)
  /\ (forall f1 f2 r1 r2,
         before ++ after = [f1; f2] ->
         try_feature L f1 = Some (Append r1) ->
         try_feature L f2 = Some (Append r2) ->
         parse_fire_data L (feature_collection members (before ++ bad :: after))
         = Some [r1; r2]).
Proof.
  intros Hmiss. apply missing_field_skipped in Hmiss.
  assert (Hsame : flat_map (accepted L) (before ++ bad :: after)
                  = flat_map (accepted L) (before ++ after)).
  { rewrite !flat_map_app. simpl. now rewrite Hmiss. }
  rewrite !parse_collection, Hsame. split; [reflexivity|]. split.
  - eexists. split; [reflexivity|]. apply accepted_length.
  - intros f1 f2 r1 r2 -> H1 H2. simpl. unfold accepted. now rewrite H1, H2.
Qed.

(** A feature whose coordinates are null, a boolean or a number gives no
    record, and the exception is that of [tuple(coords)] once the timestamp
    and the size have been read. *)
Lemma scalar_coordinates_rejected feature geometry coords :
  Py.getitem feature "geometry" = Some geometry ->
  Py.getitem geometry "coordinates" = Some coords ->
  is_scalar coords = true ->
  (forall record, try_feature L feature <> Some (Append record))
  /\ forall properties ts x time size,
      Py.getitem feature "properties" = Some properties ->
      Py.get properties "FireDiscoveryDateTime" = Some ts ->
      Py.is_none ts = false ->
      Py.truediv ts 1000 = Some x ->
      CPython.fromtimestamp x = Some time ->
      Py.get properties "IncidentSize" = Some size ->
      Py.is_none size = false ->
      try_feature L feature = None.
Proof.
  intros Hg Hc Hscalar.
  assert (Hiter : Py.iterate coords = None) by (now destruct coords).
  split.
  - intros record. unfold try_feature.
    rewrite Hg; cbn [bind]. rewrite Hc; cbn [bind].
    destruct (Py.getitem feature "properties") as [properties|];
      [cbn [bind]|discriminate].
    destruct (Py.get properties "FireDiscoveryDateTime") as [ts|];
      [cbn [bind]|discriminate].
    destruct (Py.is_none ts); [discriminate|].
    destruct (Py.truediv ts 1000) as [x|]; [cbn [bind]|discriminate].
    destruct (CPython.fromtimestamp x) as [time|]; [cbn [bind]|discriminate].
    destruct (Py.get properties "IncidentSize") as [size|];
      [cbn [bind]|discriminate].
    destruct (Py.is_none size); [discriminate|].
    rewrite Hiter. discriminate.
  - intros properties ts x time size Hp Hts Hts' Hx Ht Hsize Hsize'.
    unfold try_feature.
    rewrite Hg; cbn [bind]. rewrite Hc; cbn [bind]. rewrite Hp; cbn [bind].
    rewrite Hts; cbn [bind]. rewrite Hts', Hx; cbn [bind]. rewrite Ht; cbn [bind].
    rewrite Hsize; cbn [bind]. rewrite Hsize'. now rewrite Hiter.
Qed.

(** C10 (amended): the items of a coordinate list are not inspected.  A
    feature whose ["coordinates"] entry is a list, of whatever items, and
    whose timestamp and size convert, gives a record carrying exactly these
    items.  A feature whose entry is not iterable (null, a boolean or a
    number) never gives a record: it is skipped, a collection holding it is
    parsed as the collection without it, and when its timestamp and size
    are present the exception is the one [tuple(coords)] raises. *)
Theorem coordinate_list_is_not_validated feature geometry coords :
  Py.getitem feature "geometry" = Some geometry ->
  Py.getitem geometry "coordinates" = Some coords ->
  (forall items properties ts x time size size_float,
      coords = PyList items ->
      Py.getitem feature "properties" = Some properties ->
      Py.get properties "FireDiscoveryDateTime" = Some ts ->
      Py.truediv ts 1000 = Some x ->
      CPython.fromtimestamp x = Some time ->
      Py.get properties "IncidentSize" = Some size ->
      py_float L size = Some size_float ->
      let record := {| coordinates := items;
                       detection_time := time;
                       incident_size := size_float |} in
      try_feature L feature = Some (Append record)
      /\ forall members before after,
          exists records,
            parse_fire_data L
              (feature_collection members (before ++ feature :: after))
            = Some records
            /\ In record records)
  /\ (is_scalar coords = true ->
      (forall record, try_feature L feature <> Some (Append record))
      /\ accepted L feature = []
      /\ (forall members before after,
             parse_fire_data L
               (feature_collection members (before ++ feature :: after))
             = parse_fire_data L (feature_collection members (before ++ after)))
      /\ (forall properties ts x time size,
             Py.getitem feature "properties" = Some properties ->
             Py.get properties "FireDiscoveryDateTime" = Some ts ->
             Py.is_none ts = false ->
             Py.truediv ts 1000 = Some x ->
             CPython.fromtimestamp x = Some time ->
             Py.get properties "IncidentSize" = Some size ->
             Py.is_none size = false ->
             try_feature L feature = None)).
Proof.
  intros Hg Hc. split.
  - intros items properties ts x time size size_float -> Hp Hts Hx Ht Hsize Hf record.
    assert (Htry : try_feature L feature = Some (Append record)).
    { assert (Hts' : Py.is_none ts = false) by (now destruct ts).
      assert (Hsize' : Py.is_none size = false) by (now destruct size).
      unfold try_feature.
      rewrite Hg; cbn [bind]. rewrite Hc; cbn [bind]. rewrite Hp; cbn [bind].
      rewrite Hts; cbn [bind]. rewrite Hts', Hx; cbn [bind]. rewrite Ht; cbn [bind].
      rewrite Hsize; cbn [bind]. rewrite Hsize'. cbn [Py.iterate bind].
      now rewrite Hf. }
    split; [exact Htry|].
    intros members before after. rewrite parse_collection.
    eexists. split; [reflexivity|].
    rewrite flat_map_app. apply in_or_app. right. simpl.
    apply in_or_app. left. unfold accepted. rewrite Htry. now left.
  - intros Hscalar.
    destruct (scalar_coordinates_rejected feature geometry coords Hg Hc Hscalar)
      as [Hnever Hraise].
    assert (Hnone : accepted L feature = []).
    { unfold accepted.
      destruct (try_feature L feature) as [[record|]|] eqn:Htry; try reflexivity.
      now destruct (Hnever record). }
    split; [exact Hnever|]. split; [exact Hnone|]. split; [|exact Hraise].
    intros members before after.
    rewrite !parse_collection, !flat_map_app. simpl. now rewrite Hnone.
Qed.

End ParserFacts.

(** Witness of C5: the 50 acres of the sample feature. *)
Lemma incident_size_is_converted_input_witness :
  exists value features feature properties size,
    Py.getitem (Sample.collection [Sample.good_feature (PyFloat 50)]) "features"
    = Some value
    /\ Py.iterate value = Some features
    /\ In feature features
    /\ Py.getitem feature "properties" = Some properties
    /\ Py.get properties "IncidentSize" = Some size
    /\ py_float sample_lib size = Some (incident_size Sample.inside_fire).
Proof.
  apply (incident_size_is_converted_input sample_lib
           (Sample.collection [Sample.good_feature (PyFloat 50)])
           [Sample.inside_fire] Sample.inside_fire).
  - vm_compute. reflexivity.
  - left. reflexivity.
Defined.

(** Counterexample to C5 as stated: a feature with a negative size is
    parsed into a record with that negative size. *)
Lemma negative_incident_size_is_kept :
  parse_fire_data sample_lib (Sample.collection [Sample.good_feature (PyFloat (-5))])
  = Some [ {| coordinates := [PyFloat (-120); PyFloat 39];
              detection_time := Sample.t12;
              incident_size := (-5)%float |} ]
  /\ PrimFloat.leb 0 (-5) = false.
Proof. split; vm_compute; reflexivity. Qed.

Lemma no_timestamp_is_missing :
  missing_field Sample.no_timestamp_feature "FireDiscoveryDateTime".
Proof.
  intros properties value Hp Hv.
  vm_compute in Hp. injection Hp as <-.
  vm_compute in Hv. now injection Hv as <-.
Defined.

(** Witness of C6: three features, the second without a timestamp. *)
Lemma malformed_feature_is_skipped_witness :
  parse_fire_data sample_lib
    (Sample.collection [Sample.good_feature (PyFloat 50);
                        Sample.no_timestamp_feature;
                        Sample.good_feature (PyInt 2000)])
  = Some [ Sample.inside_fire;
           {| coordinates := [PyFloat (-120); PyFloat 39];
              detection_time := Sample.t12;
              incident_size := 2000 |} ].
Proof.
  apply (proj2 (proj2 (malformed_feature_is_skipped sample_lib
                         [("type"%string, PyStr "FeatureCollection")]
                         [Sample.good_feature (PyFloat 50)]
                         Sample.no_timestamp_feature
                         [Sample.good_feature (PyInt 2000)]
                         (or_introl no_timestamp_is_missing)))
           (Sample.good_feature (PyFloat 50)) (Sample.good_feature (PyInt 2000))).
  - reflexivity.
  - vm_compute. reflexivity.
  - vm_compute. reflexivity.
Defined.

(** Witness of C10: the rings of a polygon as coordinates. *)
Lemma coordinate_list_is_not_validated_witness :
  try_feature sample_lib Sample.rings_feature
  = Some (Append {| coordinates := Sample.rings;
                    detection_time := Sample.t12;
                    incident_size := 50 |}).
Proof.
  refine (proj1 (proj1 (coordinate_list_is_not_validated sample_lib
                          Sample.rings_feature _ _ _ _)
                   _ _ _ _ _ _ _ _ _ _ _ _ _ _)); reflexivity.
Defined.

(** Counterexample to C10 as stated: the coordinates entry is present, as
    are the timestamp and the size, and the feature is skipped, because a
    number cannot be turned into a tuple. *)
Lemma scalar_coordinates_are_skipped :
  (geometry <- Py.getitem Sample.scalar_feature "geometry" ;;
   Py.getitem geometry "coordinates") = Some (PyInt 5)
  /\ (properties <- Py.getitem Sample.scalar_feature "properties" ;;
      Py.get properties "FireDiscoveryDateTime") = Some (PyInt 1720094400000)
  /\ (properties <- Py.getitem Sample.scalar_feature "properties" ;;
      Py.get properties "IncidentSize") = Some (PyFloat 50)
  /\ try_feature sample_lib Sample.scalar_feature = None
  /\ parse_fire_data sample_lib (Sample.collection [Sample.scalar_feature]) = Some [].
Proof. repeat split; vm_compute; reflexivity. Qed.

(** ** The statistics *)

Lemma bump_keys_incl k table x :
  In x (map fst table) \/ x = k -> In x (map fst (Pandas.bump k table)).
Proof.
  induction table as [|[k' c] rest IH]; simpl.
  - intros [[]| ->]. now left.
  - destruct (Z.eqb_spec k k') as [->|Hne]; simpl.
    + intros [[H|H]|H]; auto.
    + intros [[H|H]|H]; auto.
Qed.

Lemma bump_keys k table :
  map fst (Pandas.bump k table)
  = if in_dec Z.eq_dec k (map fst table) then map fst table else map fst table ++ [k].
Proof.
  induction table as [|[k' c] rest IH]; simpl; [reflexivity|].
  destruct (Z.eqb_spec k k') as [->|Hne]; simpl.
  - destruct (Z.eq_dec k' k'); [reflexivity|congruence].
  - rewrite IH. destruct (Z.eq_dec k' k); [congruence|].
    now destruct (in_dec Z.eq_dec k (map fst rest)).
Qed.

Lemma bump_rows k table h c :
  NoDup (map fst table) ->
  In (h, c) (Pandas.bump k table) ->
  (h = k /\ ((c = 1%nat /\ ~ In k (map fst table))
             \/ exists c0, c = S c0 /\ In (k, c0) table))
  \/ (h <> k /\ In (h, c) table).
Proof.
  induction table as [|[k' c'] rest IH]; simpl; intros Hnd Hin.
  - destruct Hin as [[= <- <-]|[]]. left. split; [reflexivity|]. left. tauto.
  - inversion Hnd as [|? ? Hnotin Hnd']; subst.
    destruct (Z.eqb_spec k k') as [->|Hne]; simpl in Hin.
    + destruct Hin as [[= <- <-]|Hin].
      * left. split; [reflexivity|]. right. exists c'. split; [reflexivity|now left].
      * right. split; [|now right].
        intros ->. apply Hnotin. apply in_map_iff. now exists (k', c).
    + destruct Hin as [[= <- <-]|Hin].
      * right. split; [congruence|now left].
      * destruct (IH Hnd' Hin) as [[-> [[-> Hn]|[c0 [-> Hc0]]]]|[Hh Hc]].
        -- left. split; [reflexivity|]. left. split; [reflexivity|]. intros [H|H]; auto.
        -- left. split; [reflexivity|]. right. exists c0. split; [reflexivity|now right].
        -- right. split; [assumption|now right].
Qed.

Lemma bump_split k table before h c after :
  Pandas.bump k table = before ++ (h, c) :: after ->
  (exists before' c' after',
      table = before' ++ (h, c') :: after' /\ map fst before' = map fst before)
  \/ (h = k /\ map fst before = map fst table).
Proof.
  revert before.
  induction table as [|[k' c'] rest IH]; simpl; intros before Heq.
  - destruct before as [|x before].
    + injection Heq as <- <- <-. now right.
    + destruct before; discriminate.
  - destruct (Z.eqb_spec k k') as [->|Hne].
    + left. destruct before as [|x before]; simpl in Heq.
      * injection Heq as <- <- <-. now exists [], c', rest.
      * injection Heq as <- ->.
        exists ((k', c') :: before), c, after. now split.
    + destruct before as [|x before]; simpl in Heq.
      * injection Heq as <- <- <-. left. now exists [], c', rest.
      * injection Heq as <- Heq.
        destruct (IH before Heq) as [(b' & c0 & a' & -> & Hk)|[-> Hk]].
        -- left. exists ((k', c') :: b'), c0, a'. simpl. now rewrite Hk.
        -- right. simpl. now rewrite Hk.
Qed.

Lemma value_count_snoc values k :
  Pandas.value_count (values ++ [k]) = Pandas.bump k (Pandas.value_count values).
Proof. unfold Pandas.value_count. now rewrite fold_left_app. Qed.

Lemma occurrences_snoc values k h :
  occurrences (values ++ [k]) h
  = (occurrences values h + if Z.eq_dec k h then 1 else 0)%nat.
Proof.
  unfold occurrences. rewrite count_occ_app. simpl.
  now destruct (Z.eq_dec k h).
Qed.

(** The hash-table pass computes the counts, in first-appearance order. *)
Lemma value_count_counts values :
  counts_of values (Pandas.value_count values).
Proof.
  induction values as [|k values IH] using rev_ind.
  - repeat split; simpl.
    + constructor.
    + intros k c [].
    + intros k [].
    + intros before h c after Heq. destruct before; discriminate.
  - destruct IH as (Hnd & Hcount & Hall & Horder).
    rewrite value_count_snoc. set (table := Pandas.value_count values) in *.
    repeat split.
    + rewrite bump_keys. destruct (in_dec Z.eq_dec k (map fst table)) as [Hin|Hnin].
      * exact Hnd.
      * apply NoDup_app; [exact Hnd|repeat constructor; intros []|].
        intros x Hx [<-|[]]. contradiction.
    + intros h c Hin. rewrite occurrences_snoc.
      destruct (bump_rows k table h c Hnd Hin)
        as [[-> [[-> Hn]|[c0 [-> Hc0]]]]|[Hh Hc]].
      * destruct (Z.eq_dec k k); [|congruence].
        assert (occurrences values k = 0%nat); [|lia].
        apply count_occ_not_In. intros Hk. apply Hn. now apply Hall.
      * destruct (Z.eq_dec k k); [|congruence].
        rewrite (Hcount k c0 Hc0). lia.
      * destruct (Z.eq_dec k h); [congruence|].
        rewrite (Hcount h c Hc). lia.
    + intros x Hx. apply bump_keys_incl. apply in_app_or in Hx.
      destruct Hx as [Hx|[<-|[]]]; [left; now apply Hall|now right].
    + intros before h c after Heq.
      destruct (bump_split k table before h c after Heq)
        as [(b' & c0 & a' & Ht & Hk)|[-> Hk]].
      * destruct (Horder b' h c0 a' Ht) as (l1 & l2 & -> & Hl1).
        exists l1, (l2 ++ [k]). split; [now rewrite <- app_assoc|].
        intros x Hx. rewrite <- Hk. now apply Hl1.
      * exists values, []. split; [reflexivity|].
        intros x Hx. rewrite Hk. now apply Hall.
Qed.

Lemma insert_desc_in x s y :
  In y (Pandas.insert_desc x s) -> y = x \/ In y s.
Proof.
  induction s as [|z s IH]; simpl.
  - intros [<-|[]]. now left.
  - destruct (snd x <? snd z)%nat; simpl.
    + intros [<-|H]; [right; now left|]. destruct (IH H); auto.
    + intros [<-|H]; auto.
Qed.

(** Sorting by decreasing count brings the first maximal row to the top. *)
Lemma sort_values_desc_head table :
  table <> [] ->
  exists x rest,
    Pandas.sort_values_desc table = x :: rest
    /\ first_max table x
    /\ (forall y, In y rest -> (snd y <= snd x)%nat).
Proof.
  induction table as [|x table IH]; [congruence|]. intros _. simpl.
  destruct table as [|x' table'].
  - exists x, []. simpl. repeat split.
    + exists [], []. repeat split; intros y [].
    + intros y [].
  - destruct IH as (m & rest & -> & (before & after & Ht & Hb & Ha) & Hrest);
      [discriminate|].
    simpl. destruct (Nat.ltb_spec (snd x) (snd m)) as [Hlt|Hge].
    + exists m, (Pandas.insert_desc x rest). repeat split.
      * exists (x :: before), after. rewrite Ht. repeat split; [|exact Ha].
        intros y [<-|Hy]; [exact Hlt|now apply Hb].
      * intros y Hy. apply insert_desc_in in Hy.
        destruct Hy as [->|Hy]; [lia|now apply Hrest].
    + exists x, (m :: rest). repeat split.
      * exists [], (x' :: table'). repeat split; [intros y []|].
        intros y Hy. rewrite Ht in Hy. apply in_app_or in Hy.
        destruct Hy as [Hy|[<-|Hy]].
        -- apply Hb in Hy. lia.
        -- exact Hge.
        -- apply Ha in Hy. lia.
      * intros y [<-|Hy]; [exact Hge|]. apply Hrest in Hy. lia.
Qed.

Lemma argmax_from_top best s :
  (forall y, In y s -> (snd y <= snd best)%nat) ->
  Pandas.argmax_from best s = best.
Proof.
  induction s as [|x s IH]; simpl; intros Hle; [reflexivity|].
  destruct (Nat.ltb_spec (snd best) (snd x)) as [Hlt|_].
  - specialize (Hle x (or_introl eq_refl)). lia.
  - apply IH. intros y Hy. apply Hle. now right.
Qed.

(** [value_counts().idxmax()] is the label of the first maximal row of the
    hash-table pass. *)
Lemma idxmax_value_counts values :
  values <> [] ->
  exists x,
    Pandas.idxmax (Pandas.value_counts values) = Some (fst x)
    /\ first_max (Pandas.value_count values) x.
Proof.
  intros Hne.
  assert (Ht : Pandas.value_count values <> []).
  { destruct values as [|k values]; [congruence|].
    destruct (value_count_counts (k :: values)) as (_ & _ & Hall & _).
    specialize (Hall k (or_introl eq_refl)).
    intros Heq. rewrite Heq in Hall. exact Hall. }
  destruct (sort_values_desc_head _ Ht) as (x & rest & Hs & Hmax & Hrest).
  exists x. split; [|exact Hmax].
  unfold Pandas.value_counts. rewrite Hs. simpl.
  now rewrite argmax_from_top.
Qed.

Lemma hour_range t : 0 <= hour t < 24.
Proof. unfold hour. apply Z.mod_pos_bound. lia. Qed.

Lemma map_fst_combine {A B C : Type} (f : A -> B) (g : A -> C) (l : list A) :
  map fst (combine (map f l) (map g l)) = map f l.
Proof. induction l; simpl; congruence. Qed.

Lemma map_snd_combine {A B C : Type} (f : A -> B) (g : A -> C) (l : list A) :
  map snd (combine (map f l) (map g l)) = map g l.
Proof. induction l; simpl; congruence. Qed.

Lemma sum_mask mask acc :
  fold_left (fun a b => a + Py.int_of_bool b) mask acc
  = acc + Z.of_nat (List.length (filter (fun b => b) mask)).
Proof.
  revert acc. induction mask as [|b mask IH]; intros acc; simpl; [lia|].
  rewrite IH. destruct b; simpl; lia.
Qed.

(** ** The correlation coefficient *)




Section AnalysisFacts.

Variable L : pylib.

Lemma dataframe_hours fire_records :
  map fst (dataframe (analyze_data L fire_records)) = hours_of fire_records.
Proof. apply map_fst_combine. Qed.

Lemma dataframe_sizes fire_records :
  map snd (dataframe (analyze_data L fire_records)) = map incident_size fire_records.
Proof. apply map_snd_combine. Qed.

(** C4 (amended): for a non-empty list of point records, [most_common_hour]
    is an hour of the day between 0 and 23 that no other hour exceeds in
    frequency; among hours tied for the highest frequency it is the one
    that appears first in the records (every hour appearing before its
    first occurrence is strictly less frequent), whatever its value. *)
Theorem most_common_hour_first_seen fire_records :
  fire_records <> [] ->
  exists h,
    most_common_hour (analyze_data L fire_records) = Some h
    /\ 0 <= h < 24
    /\ (forall h', (occurrences (hours_of fire_records) h'
                    <= occurrences (hours_of fire_records) h)%nat)
    /\ exists l1 l2,
        hours_of fire_records = l1 ++ h :: l2
        /\ forall h', In h' l1 ->
                      (occurrences (hours_of fire_records) h'
                       < occurrences (hours_of fire_records) h)%nat.
Proof.
  intros Hne.
  assert (Hhours : hours_of fire_records <> []).
  { destruct fire_records; [congruence|discriminate]. }
  assert (Hmc : most_common_hour (analyze_data L fire_records)
                = Pandas.idxmax (Pandas.value_counts (hours_of fire_records))).
  { pose proof (dataframe_hours fire_records) as Hdf.
    unfold analyze_data in *. simpl in *. rewrite Hdf.
    destruct fire_records; [congruence|reflexivity]. }
  destruct (idxmax_value_counts _ Hhours) as ([h c] & Hidx & before & after & Ht & Hb & Ha).
  destruct (value_count_counts (hours_of fire_records)) as (Hnd & Hcount & Hall & Horder).
  simpl in *.
  assert (Hc : c = occurrences (hours_of fire_records) h).
  { apply Hcount. rewrite Ht. apply in_or_app. right. now left. }
  assert (Hrow : forall k n, In (k, n) (Pandas.value_count (hours_of fire_records)) ->
                             n = occurrences (hours_of fire_records) k
                             /\ (n <= c)%nat
                             /\ (In (k, n) before -> (n < c)%nat)).
  { intros k n Hin. split; [now apply Hcount|]. split.
    - rewrite Ht in Hin. apply in_app_or in Hin.
      destruct Hin as [Hin|[[= <- <-]|Hin]].
      + apply Hb in Hin. simpl in Hin. lia.
      + lia.
      + now apply Ha in Hin.
    - intros Hin'. now apply Hb in Hin'. }
  exists h. split; [now rewrite Hmc|].
  destruct (Horder before h c after Ht) as (l1 & l2 & Hsplit & Hl1).
  split; [|split].
  - assert (Hin : In h (hours_of fire_records)).
    { rewrite Hsplit. apply in_or_app. right. now left. }
    unfold hours_of in Hin. apply in_map_iff in Hin.
    destruct Hin as [record [<- _]]. apply hour_range.
  - intros h'. rewrite <- Hc.
    destruct (in_dec Z.eq_dec h' (hours_of fire_records)) as [Hin|Hnin].
    + apply Hall in Hin. apply in_map_iff in Hin.
      destruct Hin as [[k n] [Hk Hin]]. simpl in Hk. subst k.
      destruct (Hrow h' n Hin) as (-> & Hle & _). exact Hle.
    + unfold occurrences. rewrite (proj1 (count_occ_not_In Z.eq_dec _ _) Hnin). lia.
  - exists l1, l2. split; [exact Hsplit|].
    intros h' Hin. rewrite <- Hc. apply Hl1 in Hin. apply in_map_iff in Hin.
    destruct Hin as [[k n] [Hk Hin]]. simpl in Hk. subst k.
    assert (Hin' : In (h', n) (Pandas.value_count (hours_of fire_records))).
    { rewrite Ht. apply in_or_app. now left. }
    destruct (Hrow h' n Hin') as (<- & _ & Hlt). now apply Hlt.
Qed.

(** C7: [large_fire_count] is the number of records whose [incident_size]
    strictly exceeds 1000; for sizes 10, 2000 and 300 it is 1. *)
Theorem large_fire_count_counts_above_threshold fire_records :
  large_fire_count (analyze_data L fire_records)
  = Z.of_nat (List.length
                (filter (fun record => PrimFloat.ltb 1000 (incident_size record))
                        fire_records))
  /\ forall c1 t1 c2 t2 c3 t3,
      large_fire_count
        (analyze_data L
           [ {| coordinates := c1; detection_time := t1; incident_size := 10 |};
             {| coordinates := c2; detection_time := t2; incident_size := 2000 |};
             {| coordinates := c3; detection_time := t3; incident_size := 300 |} ])
      = 1.
Proof.
  assert (Hcount : forall records,
             large_fire_count (analyze_data L records)
             = Z.of_nat (List.length
                           (filter (fun record =>
                                      PrimFloat.ltb 1000 (incident_size record))
                                   records))).
  { intros records.
    pose proof (dataframe_sizes records) as Hdf.
    unfold analyze_data in *. simpl in *. rewrite Hdf. clear Hdf.
    unfold Pandas.sum, Pandas.gt, large_fire_threshold. rewrite sum_mask. simpl.
    f_equal. induction records as [|record records IH]; simpl; [reflexivity|].
    destruct (PrimFloat.ltb 1000 (incident_size record)); simpl; now rewrite IH. }
  split; [apply Hcount|].
  intros c1 t1 c2 t2 c3 t3. rewrite Hcount. reflexivity.
Qed.


End AnalysisFacts.



(** Witness of C4: hours 5, 5 and 9. *)
Lemma most_common_hour_first_seen_witness :
  exists h,
    most_common_hour
      (analyze_data sample_lib
         [Sample.incident 5 10; Sample.incident 5 2000; Sample.incident 9 300])
    = Some h
    /\ 0 <= h < 24
    /\ (forall h',
           (occurrences (hours_of [Sample.incident 5 10; Sample.incident 5 2000;
                                   Sample.incident 9 300]) h'
            <= occurrences (hours_of [Sample.incident 5 10; Sample.incident 5 2000;
                                      Sample.incident 9 300]) h)%nat)
    /\ exists l1 l2,
        hours_of [Sample.incident 5 10; Sample.incident 5 2000; Sample.incident 9 300]
        = l1 ++ h :: l2
        /\ forall h', In h' l1 ->
                      (occurrences (hours_of [Sample.incident 5 10;
                                              Sample.incident 5 2000;
                                              Sample.incident 9 300]) h'
                       < occurrences (hours_of [Sample.incident 5 10;
                                                Sample.incident 5 2000;
                                                Sample.incident 9 300]) h)%nat.
Proof.
  apply (most_common_hour_first_seen sample_lib
           [Sample.incident 5 10; Sample.incident 5 2000; Sample.incident 9 300]).
  discriminate.
Defined.

(** Counterexample to C4 as stated: hours 9 and 5 occur once each, and the
    hour returned is 9, the first seen, not 5, the lowest. *)
Lemma tie_goes_to_first_seen_hour :
  hours_of [Sample.incident 9 10; Sample.incident 5 2000] = [9; 5]
  /\ occurrences [9; 5] 9 = occurrences [9; 5] 5
  /\ most_common_hour
       (analyze_data sample_lib [Sample.incident 9 10; Sample.incident 5 2000])
     = Some 9.
Proof. repeat split; vm_compute; reflexivity. Qed.

(** ** Containment on the boundary *)

Section BoundaryFacts.

Local Open Scope Q_scope.

Lemma Qlt_bool_iff x y : Shapely.Qlt_bool x y = true <-> x < y.
Proof.
  unfold Shapely.Qlt_bool. rewrite negb_true_iff. split.
  - intros H. apply Qnot_le_lt. intros Hle. apply Qle_bool_iff in Hle. congruence.
  - intros H. destruct (Qle_bool y x) eqn:E; [|reflexivity].
    apply Qle_bool_iff in E. lra.
Qed.

Lemma Qlt_bool_false x y : Shapely.Qlt_bool x y = false <-> y <= x.
Proof.
  unfold Shapely.Qlt_bool. rewrite negb_false_iff. apply Qle_bool_iff.
Qed.

Lemma Qle_bool_false x y : Qle_bool x y = false <-> y < x.
Proof.
  split.
  - intros H. apply Qnot_le_lt. intros Hle. apply Qle_bool_iff in Hle. congruence.
  - intros H. destruct (Qle_bool x y) eqn:E; [|reflexivity].
    apply Qle_bool_iff in E. lra.
Qed.

Lemma Qeq_bool_false x y : Qeq_bool x y = false <-> ~ x == y.
Proof.
  split.
  - intros H Heq. apply Qeq_bool_iff in Heq. congruence.
  - intros H. destruct (Qeq_bool x y) eqn:E; [|reflexivity].
    apply Qeq_bool_iff in E. contradiction.
Qed.

(** A point of a segment is reported on it, except possibly when it is the
    start vertex of a segment that does not reach the ray. *)
Lemma count_segment_on p a b :
  on_segment p a b ->
  Shapely.count_segment p a b = Shapely.OnSegment
  \/ (fst p == fst a /\ snd p == snd a).
Proof.
  destruct p as [px py], a as [ax ay], b as [bx by_].
  unfold on_segment, Shapely.count_segment, Shapely.orientation_index. simpl.
  intros (Hcol & Hx & Hy).
  destruct (Shapely.Qlt_bool ax px && Shapely.Qlt_bool bx px) eqn:T1.
  { apply andb_true_iff in T1. destruct T1 as [H1 H2].
    apply Qlt_bool_iff in H1, H2. lra. }
  destruct (Qeq_bool px bx && Qeq_bool py by_) eqn:T2; [now left|].
  destruct (Qeq_bool ay py && Qeq_bool by_ py) eqn:T3.
  { apply andb_true_iff in T3. destruct T3 as [H1 H2].
    apply Qeq_bool_iff in H1, H2. left.
    destruct (Shapely.Qlt_bool bx ax) eqn:T4.
    - apply Qlt_bool_iff in T4.
      assert (Qle_bool bx px = true) as -> by (apply Qle_bool_iff; lra).
      assert (Qle_bool px ax = true) as -> by (apply Qle_bool_iff; lra).
      reflexivity.
    - apply Qlt_bool_false in T4.
      assert (Qle_bool ax px = true) as -> by (apply Qle_bool_iff; lra).
      assert (Qle_bool px bx = true) as -> by (apply Qle_bool_iff; lra).
      reflexivity. }
  destruct ((Shapely.Qlt_bool py ay && Qle_bool by_ py)
            || (Shapely.Qlt_bool py by_ && Qle_bool ay py)) eqn:T4.
  { left.
    assert (((bx - ax) * (py - ay) - (by_ - ay) * (px - ax) ?= 0) = Eq) as ->;
      [|reflexivity].
    apply Qeq_alt. lra. }
  right.
  apply andb_false_iff in T2. apply andb_false_iff in T3.
  apply orb_false_iff in T4. destruct T4 as [T4 T5].
  apply andb_false_iff in T4. apply andb_false_iff in T5.
  rewrite !Qeq_bool_false in *. rewrite !Qlt_bool_false in *.
  rewrite !Qle_bool_false in *.
  nra.
Qed.

(** A point that is the end vertex of a segment is reported on it. *)
Lemma count_segment_end p a b :
  fst p == fst b -> snd p == snd b ->
  Shapely.count_segment p a b = Shapely.OnSegment.
Proof.
  intros Hx Hy. unfold Shapely.count_segment.
  assert (Shapely.Qlt_bool (fst b) (fst p) = false) as ->
      by (apply Qlt_bool_false; lra).
  rewrite andb_false_r.
  assert (Qeq_bool (fst p) (fst b) = true) as -> by now apply Qeq_bool_iff.
  assert (Qeq_bool (snd p) (snd b) = true) as -> by now apply Qeq_bool_iff.
  reflexivity.
Qed.

Lemma count_ring_on p ring crossings i a b :
  nth_error ring i = Some a ->
  nth_error ring (S i) = Some b ->
  Shapely.count_segment p a b = Shapely.OnSegment ->
  Shapely.count_ring p ring crossings = Shapely.Boundary.
Proof.
  revert crossings i.
  induction ring as [|p1 rest IH]; intros crossings i Ha Hb Hon.
  - destruct i; discriminate.
  - destruct rest as [|p2 rest']; [destruct i; discriminate|].
    destruct i as [|i].
    + injection Ha as ->. injection Hb as ->.
      simpl. now rewrite Hon.
    + change (Shapely.count_ring p (p1 :: p2 :: rest') crossings)
        with (match Shapely.count_segment p p1 p2 with
              | Shapely.OnSegment => Shapely.Boundary
              | Shapely.Crosses => Shapely.count_ring p (p2 :: rest') (S crossings)
              | Shapely.Misses => Shapely.count_ring p (p2 :: rest') crossings
              end).
      destruct (Shapely.count_segment p p1 p2); [reflexivity| |];
        now apply (IH _ i).
Qed.

(** A point on an edge of a closed ring is located on the boundary. *)
Lemma ring_edge_is_boundary p ring :
  closed_ring ring ->
  on_ring_edge p ring ->
  Shapely.locate_in_ring p ring = Shapely.Boundary.
Proof.
  intros (first & middle & last & Hring & Hfx & Hfy) (i & a & b & Ha & Hb & Hon).
  unfold Shapely.locate_in_ring.
  destruct (count_segment_on p a b Hon) as [Hseg|[Hx Hy]].
  - now apply (count_ring_on p ring 0%nat i a b).
  - destruct i as [|j].
    + assert (Hlast : nth_error ring (S (List.length middle)) = Some last).
      { rewrite Hring. simpl. rewrite nth_error_app2 by lia.
        now rewrite Nat.sub_diag. }
      destruct (nth_error ring (List.length middle)) as [prev|] eqn:Hprev.
      * apply (count_ring_on p ring 0%nat (List.length middle) prev last Hprev Hlast).
        rewrite Hring in Ha. injection Ha as <-.
        apply count_segment_end; lra.
      * apply nth_error_None in Hprev. rewrite Hring in Hprev. simpl in Hprev.
        rewrite length_app in Hprev. simpl in Hprev. lia.
    + destruct (nth_error ring j) as [prev|] eqn:Hprev.
      * apply (count_ring_on p ring 0%nat j prev a Hprev Ha).
        now apply count_segment_end.
      * apply nth_error_None in Hprev.
        assert (nth_error ring (S j) <> None) as Hsome by congruence.
        apply nth_error_Some in Hsome. lia.
Qed.

(** Such a position is on the boundary of the geometry. *)
Lemma shell_edge_is_boundary p g :
  on_shell_edge p g -> Shapely.locate p g = Shapely.Boundary.
Proof.
  intros (before & poly & after & -> & Hout & Hclosed & Hedge).
  induction Hout as [|q before Hq Hout IH]; simpl.
  - unfold Shapely.locate_in_polygon.
    now rewrite (ring_edge_is_boundary p _ Hclosed Hedge).
  - now rewrite Hq.
Qed.

(** A point at such a position is not contained in the geometry. *)
Lemma shell_edge_not_contained fire_point position g :
  Shapely.exact fire_point = Some position ->
  on_shell_edge position g ->
  Shapely.contains g fire_point = false.
Proof.
  intros Hposition Hedge. unfold Shapely.contains.
  now rewrite Hposition, (shell_edge_is_boundary _ _ Hedge).
Qed.

End BoundaryFacts.

Lemma find_none_all {A : Type} (f : A -> bool) (l : list A) :
  (forall x, In x l -> f x = false) -> find f l = None.
Proof.
  induction l as [|x l IH]; simpl; intros Hall; [reflexivity|].
  rewrite (Hall x (or_introl eq_refl)). apply IH. intros y Hy. apply Hall. now right.
Qed.

(** C2 (amended): containment is that of the interior.  A point lying on
    an edge of the exterior ring of a polygon is not contained in it, so
    that a point record whose point lies on such an edge of every polygon
    record gets no match, whatever the detection times and however the
    point was built from the coordinates of the record. *)
Theorem boundary_point_is_not_contained
        (Point : list pyobj -> option Shapely.coord)
        record fire_point position wfs_records :
  Point (coordinates record) = Some fire_point ->
  Shapely.exact fire_point = Some position ->
  (forall wfs, In wfs wfs_records -> on_shell_edge position (polygon wfs)) ->
  (forall wfs, In wfs wfs_records ->
               Shapely.contains (polygon wfs) fire_point = false)
  /\ compare_detection_times Shapely.geometry Shapely.coord Point Shapely.contains
       [record] wfs_records
     = Some [].
Proof.
  intros Hp Hposition Hedge.
  assert (Hout : forall wfs, In wfs wfs_records ->
                             Shapely.contains (polygon wfs) fire_point = false).
  { intros wfs Hin. apply (shell_edge_not_contained _ position); [assumption|].
    now apply Hedge. }
  split; [exact Hout|].
  rewrite compare_cons, Hp. simpl.
  unfold first_qualifying_match. rewrite find_none_all; [reflexivity|].
  intros wfs Hin. unfold detected_earlier. now rewrite (Hout wfs Hin).
Qed.

(** The position (-121, 39) lies on the west edge of the sample box. *)
Lemma edge_position_on_box : on_shell_edge Sample.edge_position Sample.box.
Proof.
  exists [], {| Shapely.shell :=
                  [(-121 # 1, 38 # 1); (-119 # 1, 38 # 1); (-119 # 1, 40 # 1);
                   (-121 # 1, 40 # 1); (-121 # 1, 38 # 1)]%Q;
                Shapely.holes := [] |}, [].
  split; [reflexivity|]. split; [constructor|]. split.
  - exists (-121 # 1, 38 # 1)%Q,
      [(-119 # 1, 38 # 1); (-119 # 1, 40 # 1); (-121 # 1, 40 # 1)]%Q,
      (-121 # 1, 38 # 1)%Q.
    repeat split; reflexivity.
  - exists 3%nat, (-121 # 1, 40 # 1)%Q, (-121 # 1, 38 # 1)%Q.
    split; [reflexivity|]. split; [reflexivity|].
    unfold on_segment, Sample.edge_position. simpl.
    unfold Qeq, Qle. simpl. lia.
Defined.

(** Witness of C2: the sample fire on the west edge of the box, with the
    point shapely builds for it, although the box was detected two hours
    before the fire was reported. *)
Lemma boundary_point_is_not_contained_witness :
  (forall wfs, In wfs [Sample.box_at Sample.t10] ->
               Shapely.contains (polygon wfs) Sample.edge_point = false)
  /\ compare_detection_times_shapely [Sample.edge_fire] [Sample.box_at Sample.t10]
     = Some [].
Proof.
  apply (boundary_point_is_not_contained Shapely.Point Sample.edge_fire
           Sample.edge_point Sample.edge_position [Sample.box_at Sample.t10]).
  - vm_compute. reflexivity.
  - vm_compute. reflexivity.
  - intros wfs [<-|[]]. exact edge_position_on_box.
Defined.

(** Counterexample to C2 as stated: the point (-121, 39) lies on an edge of
    the box, the box was detected strictly earlier, and yet the point is
    not contained and no match is produced. *)
Lemma boundary_point_yields_no_match :
  Shapely.Point (coordinates Sample.edge_fire) = Some Sample.edge_point
  /\ Shapely.exact Sample.edge_point = Some Sample.edge_position
  /\ on_shell_edge Sample.edge_position (polygon (Sample.box_at Sample.t10))
  /\ Shapely.locate Sample.edge_position Sample.box = Shapely.Boundary
  /\ (wfs_time (Sample.box_at Sample.t10) <? detection_time Sample.edge_fire) = true
  /\ Shapely.contains (polygon (Sample.box_at Sample.t10)) Sample.edge_point = false
  /\ compare_detection_times_shapely [Sample.edge_fire] [Sample.box_at Sample.t10]
     = Some [].
Proof.
  split; [vm_compute; reflexivity|]. split; [vm_compute; reflexivity|].
  split; [exact edge_position_on_box|].
  repeat split; vm_compute; reflexivity.
Qed.

(** ** Scenarios *)

(** A fire at (-120, 39) reported at 12:00 inside a box detected at 10:00:
    one entry. *)
Example scenario_earlier_detection :
  compare_detection_times_shapely [Sample.inside_fire] [Sample.box_at Sample.t10]
  = Some [ {| early_coordinates := [PyFloat (-120); PyFloat 39];
              wfs_detection_time := Sample.t10;
              official_time := Sample.t12;
              early_incident_size := 50 |} ].
Proof. vm_compute. reflexivity. Qed.

(** The same fire and a box detected at 14:00: no entry. *)
Example scenario_later_detection :
  compare_detection_times_shapely [Sample.inside_fire] [Sample.box_at Sample.t14]
  = Some [].
Proof. vm_compute. reflexivity. Qed.

(** A fire outside the box: no entry, whatever the times. *)
Example scenario_outside :
  compare_detection_times_shapely
    [Sample.fire_at (-118) 39] [Sample.box_at Sample.t10; Sample.box_at Sample.t14]
  = Some [].
Proof. vm_compute. reflexivity. Qed.

(** Coordinates that are not a point make [Point] raise, and the call with
    it: the rings of a polygon, as the parser lets them through. *)
Example scenario_rings_as_point :
  compare_detection_times_shapely
    [ {| coordinates := Sample.rings; detection_time := Sample.t12;
         incident_size := 50 |} ]
    [Sample.box_at Sample.t10]
  = None.
Proof. vm_compute. reflexivity. Qed.

(** A third coordinate is converted as the first two are: a null elevation
    makes [Point] raise, a number is accepted and ignored. *)
Example scenario_elevation :
  Shapely.Point [PyFloat (-121); PyFloat 39; PyNone] = None
  /\ Shapely.Point [PyFloat (-121); PyFloat 39; PyInt 250]
     = Some ((-121)%float, 39%float).
Proof. split; vm_compute; reflexivity. Qed.

(** A tuple holding one pair is squeezed to the pair; an ordinate may be a
    NaN or an infinity; an int is rounded to binary64. *)
Example scenario_point_coordinates :
  Shapely.Point [PyList [PyFloat (-120); PyFloat 39]]
  = Some ((-120)%float, 39%float)
  /\ Shapely.Point [PyFloat nan; PyFloat infinity] = Some (nan, infinity)
  /\ Shapely.Point [PyInt 9007199254740993; PyInt 0]
     = Some (9007199254740992%float, 0%float).
Proof. repeat split; vm_compute; reflexivity. Qed.

(** Hours 5, 5, 9 and sizes 10, 2000, 300. *)
Example scenario_statistics :
  let result :=
    analyze_data sample_lib
      [Sample.incident 5 10; Sample.incident 5 2000; Sample.incident 9 300] in
  most_common_hour result = Some 5 /\ large_fire_count result = 1.
Proof. vm_compute. split; reflexivity. Qed.

(** No incident at all. *)
Example scenario_no_incident :
  let result := analyze_data sample_lib [] in
  most_common_hour result = None
  /\ large_fire_count result = 0
  /\ correlation result = None.
Proof. vm_compute. repeat split; reflexivity. Qed.

(** The evaluations above that go through the parser or the statistics do
    not depend on the two library calls kept as parameters. *)
Lemma samples_are_runtime_independent (L : pylib) :
  parse_fire_data L (Sample.collection [Sample.good_feature (PyFloat (-5))])
  = parse_fire_data sample_lib
      (Sample.collection [Sample.good_feature (PyFloat (-5))])
  /\ parse_fire_data L (Sample.collection [Sample.scalar_feature]) = Some []
  /\ most_common_hour
       (analyze_data L [Sample.incident 9 10; Sample.incident 5 2000])
     = Some 9.
Proof. repeat split; vm_compute; reflexivity. Qed.

(** * Further properties *)

(** ** The parser of the incident feed *)

(** A list built from at most one item per element keeps the order of the
    elements. *)
Lemma flat_map_follows_order {A B : Type} (f : A -> list B) (l : list A) :
  (forall a, (List.length (f a) <= 1)%nat) ->
  exists idxs,
    StronglySorted Nat.lt idxs
    /\ Forall2 (fun i b => exists a, nth_error l i = Some a /\ In b (f a))
               idxs (flat_map f l).
Proof.
  intros Hone. induction l as [|a l (idxs & Hsorted & Hfrom)]; simpl.
  - exists []. split; constructor.
  - assert (Hshift : Forall2 (fun i b => exists a', nth_error (a :: l) i = Some a'
                                                    /\ In b (f a'))
                             (map S idxs) (flat_map f l)).
    { clear - Hfrom. induction Hfrom; simpl; constructor; auto. }
    specialize (Hone a). destruct (f a) as [|b [|? ?]] eqn:Hfa; simpl in *.
    + exists (map S idxs). split; [|exact Hshift].
      exact (sorted_tail _ _ (sorted_shift idxs Hsorted)).
    + exists (0%nat :: map S idxs). split; [now apply sorted_shift|].
      constructor; [|exact Hshift].
      exists a. split; [reflexivity|]. rewrite Hfa. now left.
    + lia.
Qed.

Lemma accepted_at_most_one (L : pylib) (feature : pyobj) :
  (List.length (accepted L feature) <= 1)%nat.
Proof.
  unfold accepted. destruct (try_feature L feature) as [[r|]|]; simpl; lia.
Qed.

Lemma string_is_no_feature (L : pylib) (s : string) :
  accepted L (PyStr s) = [].
Proof. reflexivity. Qed.

Lemma chars_are_strings (s : string) (f : pyobj) :
  In f (Py.chars s) -> exists c, f = PyStr c.
Proof.
  induction s as [|c s IH]; simpl; [contradiction|].
  intros [<-|Hf]; [now eexists|now apply IH].
Qed.

(** X1: what the guard and the loop header do with the top-level value.  A
    falsy value and an object without ["features"] give the empty list;
    an object with a ["features"] member makes the call raise exactly when
    that member is null, a boolean or a number. *)
Theorem parse_fire_data_top_level (L : pylib) :
  (forall geojson_data,
      Py.truthy geojson_data = false -> parse_fire_data L geojson_data = Some [])
  /\ (forall kv,
         Py.dict_lookup kv "features" = None ->
         parse_fire_data L (PyDict kv) = Some [])
  /\ (forall kv value,
         Py.dict_lookup kv "features" = Some value ->
         (parse_fire_data L (PyDict kv) = None <-> is_scalar value = true)).
Proof.
  split; [|split].
  - intros d Hd. unfold parse_fire_data. now rewrite Hd.
  - intros kv Hkv. unfold parse_fire_data.
    destruct (negb (Py.truthy (PyDict kv))); [reflexivity|].
    simpl. now rewrite Hkv.
  - intros kv value Hkv. unfold parse_fire_data.
    assert (Htruthy : Py.truthy (PyDict kv) = true).
    { destruct kv; [discriminate|reflexivity]. }
    rewrite Htruthy. simpl. rewrite Hkv. simpl.
    destruct value; simpl; split; intros H; congruence.
Qed.

(** X2: when the ["features"] member is an object or a text instead of a
    list, the loop runs over its keys or its characters, none of which is
    a feature: the result is the empty list, without an exception. *)
Theorem features_of_wrong_kind_give_nothing (L : pylib) kv value :
  Py.dict_lookup kv "features" = Some value ->
  (exists members, value = PyDict members) \/ (exists s, value = PyStr s) ->
  parse_fire_data L (PyDict kv) = Some [].
Proof.
  intros Hkv Hkind. unfold parse_fire_data.
  assert (Htruthy : Py.truthy (PyDict kv) = true).
  { destruct kv; [discriminate|reflexivity]. }
  rewrite Htruthy. simpl. rewrite Hkv. simpl.
  assert (Hnone : forall features,
             (forall f, In f features -> exists s, f = PyStr s) ->
             parse_features L features [] = []).
  { intros features Hall. rewrite parse_features_acc. simpl.
    induction features as [|f features IH]; [reflexivity|]. simpl.
    destruct (Hall f (or_introl eq_refl)) as [s ->].
    rewrite string_is_no_feature. simpl. apply IH.
    intros g Hg. apply Hall. now right. }
  destruct Hkind as [[members ->]|[s ->]]; simpl; rewrite Hnone; try reflexivity.
  - intros f Hf. apply in_map_iff in Hf. destruct Hf as [e [<- _]]. now eexists.
  - intros f Hf. now apply chars_are_strings in Hf.
Qed.

(** X3: the records of a feature collection follow the order of its
    features, at most one record per feature, and each record is what the
    parser makes of the feature at its position. *)
Theorem records_follow_feature_order (L : pylib) members features :
  exists records idxs,
    parse_fire_data L (feature_collection members features) = Some records
    /\ StronglySorted Nat.lt idxs
    /\ Forall2 (fun i record =>
                  exists feature,
                    nth_error features i = Some feature
                    /\ parsed_from L feature record) idxs records.
Proof.
  destruct (flat_map_follows_order (accepted L) features (accepted_at_most_one L))
    as (idxs & Hsorted & Hfrom).
  exists (flat_map (accepted L) features), idxs.
  split; [apply parse_collection|]. split; [exact Hsorted|].
  induction Hfrom as [|i record idxs' records' (feature & Hnth & Hin) Hfrom IH];
    constructor.
  - exists feature. split; [exact Hnth|].
    now apply accepted_origin.
  - apply IH. now apply sorted_tail in Hsorted.
Qed.

(** X4: features are handled one by one: parsing two lists of features put
    end to end gives the records of the first followed by the records of
    the second. *)
Theorem parse_fire_data_concatenation (L : pylib) members first second :
  exists first_records second_records,
    parse_fire_data L (feature_collection members first) = Some first_records
    /\ parse_fire_data L (feature_collection members second) = Some second_records
    /\ parse_fire_data L (feature_collection members (first ++ second))
       = Some (first_records ++ second_records).
Proof.
  exists (flat_map (accepted L) first), (flat_map (accepted L) second).
  rewrite !parse_collection. now rewrite flat_map_app.
Qed.

Lemma truediv_non_finite f :
  Prim2SF f = S754_nan \/ (exists s, Prim2SF f = S754_infinity s) ->
  exists x, Py.truediv (PyFloat f) 1000 = Some x /\ CPython.fromtimestamp x = None.
Proof.
  intros Hf. exists (PrimFloat.div f 1000). split; [reflexivity|].
  unfold CPython.fromtimestamp, CPython.trunc.
  rewrite div_spec.
  destruct Hf as [->|[s ->]]; [reflexivity|].
  now destruct s.
Qed.

(** X5: a feature whose timestamp is present but cannot be turned into an
    instant (text, a list, an object, NaN or an infinity) is skipped. *)
Theorem unusable_timestamp_is_skipped (L : pylib) feature properties ts :
  Py.getitem feature "properties" = Some properties ->
  Py.get properties "FireDiscoveryDateTime" = Some ts ->
  unusable_timestamp ts ->
  accepted L feature = []
  /\ forall members before after,
      parse_fire_data L (feature_collection members (before ++ feature :: after))
      = parse_fire_data L (feature_collection members (before ++ after)).
Proof.
  intros Hp Hts Hbad.
  assert (Hskip : accepted L feature = []).
  { unfold accepted, try_feature.
    destruct (Py.getitem feature "geometry") as [geometry|]; [simpl|reflexivity].
    destruct (Py.getitem geometry "coordinates") as [coords|]; [simpl|reflexivity].
    rewrite Hp. simpl. rewrite Hts. simpl.
    destruct ts; simpl in Hbad; try contradiction; try reflexivity.
    destruct (truediv_non_finite f Hbad) as (x & Hx & Hnone).
    unfold Py.is_none. rewrite Hx. simpl. now rewrite Hnone. }
  split; [exact Hskip|].
  intros members before after. rewrite !parse_collection, !flat_map_app. simpl.
  now rewrite Hskip.
Qed.

(** ** The parser of the satellite feed *)

Section WfsParserFacts.

Variable geometry : Type.
Variable shape : pyobj -> option geometry.
Variable fromisoformat_utc : string -> option datetime.

Lemma parse_wfs_features_acc features wfs_records :
  parse_wfs_features geometry shape fromisoformat_utc features wfs_records
  = wfs_records ++ flat_map (wfs_accepted geometry shape fromisoformat_utc) features.
Proof.
  revert wfs_records.
  induction features as [|feature rest IH]; intros acc; simpl.
  - now rewrite app_nil_r.
  - unfold wfs_accepted at 1.
    destruct (try_wfs_feature geometry shape fromisoformat_utc feature) as [[r|]|];
      rewrite IH; simpl; [now rewrite <- app_assoc | reflexivity | reflexivity].
Qed.

Lemma parse_wfs_collection members features :
  parse_wfs_data geometry shape fromisoformat_utc (feature_collection members features)
  = Some (flat_map (wfs_accepted geometry shape fromisoformat_utc) features).
Proof.
  unfold parse_wfs_data, feature_collection. simpl.
  now rewrite parse_wfs_features_acc.
Qed.

Lemma wfs_accepted_at_most_one feature :
  (List.length (wfs_accepted geometry shape fromisoformat_utc feature) <= 1)%nat.
Proof.
  unfold wfs_accepted.
  destruct (try_wfs_feature geometry shape fromisoformat_utc feature) as [[r|]|];
    simpl; lia.
Qed.

Lemma wfs_accepted_origin feature record :
  In record (wfs_accepted geometry shape fromisoformat_utc feature) ->
  wfs_parsed_from geometry shape fromisoformat_utc feature record.
Proof.
  unfold wfs_accepted, wfs_parsed_from, try_wfs_feature.
  destruct (Py.getitem feature "geometry") as [geometry_value|]; [simpl|intros []].
  destruct (Py.getitem feature "properties") as [properties|]; [simpl|intros []].
  destruct (shape geometry_value) as [poly|] eqn:Hshape; [simpl|intros []].
  destruct (Py.get properties "oldest_detection") as [detection_str|] eqn:Hget;
    [simpl|intros []].
  destruct detection_str; simpl; try (intros []).
  destruct (fromisoformat_utc s) as [time|] eqn:Htime; simpl; [|intros []].
  intros [<-|[]]. simpl.
  exists geometry_value, properties, s. repeat split; assumption.
Qed.

(** X6: a feature of the satellite feed gives a record exactly when shapely
    accepts its geometry and its ["oldest_detection"] is a text that
    [fromisoformat] accepts; the record then holds that shape and that
    instant.  Every other feature gives nothing. *)
Theorem wfs_record_iff_shape_and_time feature record :
  In record (wfs_accepted geometry shape fromisoformat_utc feature)
  <-> wfs_parsed_from geometry shape fromisoformat_utc feature record.
Proof.
  split; [apply wfs_accepted_origin|].
  unfold wfs_accepted, wfs_parsed_from, try_wfs_feature.
  - intros (geometry_value & properties & detection_str & -> & -> & Hshape & Hget & Htime).
    simpl. rewrite Hshape. simpl. rewrite Hget. simpl. rewrite Htime. simpl.
    left. now destruct record.
Qed.

(** X7: the records of the satellite feed follow the order of its features,
    at most one record per feature, each record made of the feature at its
    position. *)
Theorem wfs_records_follow_feature_order members features :
  exists records idxs,
    parse_wfs_data geometry shape fromisoformat_utc
      (feature_collection members features) = Some records
    /\ StronglySorted Nat.lt idxs
    /\ Forall2 (fun i record =>
                  exists feature,
                    nth_error features i = Some feature
                    /\ wfs_parsed_from geometry shape fromisoformat_utc
                         feature record) idxs records.
Proof.
  destruct (flat_map_follows_order
              (wfs_accepted geometry shape fromisoformat_utc) features
              wfs_accepted_at_most_one) as (idxs & Hsorted & Hfrom).
  exists (flat_map (wfs_accepted geometry shape fromisoformat_utc) features), idxs.
  split; [apply parse_wfs_collection|]. split; [exact Hsorted|].
  clear Hsorted.
  induction Hfrom as [|i record idxs' records' (feature & Hnth & Hin) Hfrom IH];
    constructor; [|exact IH].
  exists feature. split; [exact Hnth|].
  now apply wfs_accepted_origin.
Qed.

(** X8: a feature of the satellite feed without a usable
    ["oldest_detection"] is skipped on its own: the result is the same as
    without it, and the call returns. *)
Theorem wfs_feature_without_detection_is_skipped members before bad after :
  missing_field bad "oldest_detection" ->
  parse_wfs_data geometry shape fromisoformat_utc
    (feature_collection members (before ++ bad :: after))
  = parse_wfs_data geometry shape fromisoformat_utc
      (feature_collection members (before ++ after))
  /\ exists records,
      parse_wfs_data geometry shape fromisoformat_utc
        (feature_collection members (before ++ bad :: after)) = Some records
      /\ (List.length records <= List.length (before ++ after))%nat.
Proof.
  intros Hmiss.
  assert (Hskip : wfs_accepted geometry shape fromisoformat_utc bad = []).
  { unfold wfs_accepted, try_wfs_feature, missing_field in *.
    destruct (Py.getitem bad "geometry") as [geometry_value|]; [simpl|reflexivity].
    destruct (Py.getitem bad "properties") as [properties|]; [simpl|reflexivity].
    destruct (shape geometry_value) as [poly|]; [simpl|reflexivity].
    destruct (Py.get properties "oldest_detection") as [value|] eqn:Hget;
      [simpl|reflexivity].
    now rewrite (Hmiss properties value eq_refl Hget). }
  rewrite !parse_wfs_collection, !flat_map_app. simpl. rewrite Hskip. simpl.
  split; [reflexivity|].
  eexists. split; [reflexivity|].
  rewrite <- flat_map_app.
  induction (before ++ after) as [|f l IH]; simpl; [lia|].
  rewrite length_app. pose proof (wfs_accepted_at_most_one f). lia.
Qed.

(** X9: the top-level value of the satellite feed.  A falsy value and an
    object without ["features"] give the empty list; an object with a
    ["features"] member makes the call raise exactly when that member is
    null, a boolean or a number. *)
Theorem parse_wfs_data_top_level :
  (forall geojson_data,
      Py.truthy geojson_data = false ->
      parse_wfs_data geometry shape fromisoformat_utc geojson_data = Some [])
  /\ (forall kv,
         Py.dict_lookup kv "features" = None ->
         parse_wfs_data geometry shape fromisoformat_utc (PyDict kv) = Some [])
  /\ (forall kv value,
         Py.dict_lookup kv "features" = Some value ->
         (parse_wfs_data geometry shape fromisoformat_utc (PyDict kv) = None
          <-> is_scalar value = true)).
Proof.
  split; [|split].
  - intros d Hd. unfold parse_wfs_data. now rewrite Hd.
  - intros kv Hkv. unfold parse_wfs_data.
    destruct (negb (Py.truthy (PyDict kv))); [reflexivity|].
    simpl. now rewrite Hkv.
  - intros kv value Hkv. unfold parse_wfs_data.
    assert (Htruthy : Py.truthy (PyDict kv) = true).
    { destruct kv; [discriminate|reflexivity]. }
    rewrite Htruthy. simpl. rewrite Hkv. simpl.
    destruct value; simpl; split; intros H; congruence.
Qed.

End WfsParserFacts.

(** ** Fetching *)

Section FetchFacts.

Variable request : pyobj -> response.

(** X10: the three outcomes of [fetch_fire_data] on a JSON object.  It
    returns [None] when the request fails, or when the body has an
    ["error"] member holding a ["message"]; it returns the body itself when
    there is no ["error"] member and the ["features"] member has a length;
    in every other case an exception leaves the function. *)
Theorem fetch_fire_data_outcomes polygon :
  (request polygon = RequestFailed -> fetch_fire_data request polygon = Some None)
  /\ forall kv,
      request polygon = Body (PyDict kv) ->
      (fetch_fire_data request polygon = Some None
       <-> exists error message,
             Py.dict_lookup kv "error" = Some error
             /\ Py.getitem error "message" = Some message)
      /\ (fetch_fire_data request polygon = Some (Some (PyDict kv))
          <-> Py.dict_lookup kv "error" = None
              /\ exists features count,
                  Py.dict_lookup kv "features" = Some features
                  /\ Py.len features = Some count)
      /\ (forall data, fetch_fire_data request polygon = Some (Some data) ->
                       data = PyDict kv).
Proof.
  unfold fetch_fire_data. split; [now intros ->|].
  intros kv ->. simpl.
  destruct (Py.dict_lookup kv "error") as [error|] eqn:Herr; simpl.
  - destruct (Py.getitem error "message") as [message|] eqn:Hmsg; simpl.
    + split; [|split].
      * split; [intros _; now exists error, message|reflexivity].
      * split; [discriminate|intros [H _]; discriminate].
      * discriminate.
    + split; [|split].
      * split; [discriminate|intros (e & m & [= <-] & Hm); congruence].
      * split; [discriminate|intros [H _]; discriminate].
      * discriminate.
  - destruct (Py.dict_lookup kv "features") as [features|] eqn:Hfeat; simpl.
    + destruct (Py.len features) as [count|] eqn:Hlen; simpl.
      * split; [|split].
        -- split; [discriminate|intros (e & m & H & _); discriminate].
        -- split; [intros _; split; [reflexivity|now exists features, count]
                  |reflexivity].
        -- now intros data [= <-].
      * split; [|split].
        -- split; [discriminate|intros (e & m & H & _); discriminate].
        -- split; [discriminate|intros (_ & f & c & [= <-] & Hc); congruence].
        -- discriminate.
    + split; [|split].
      * split; [discriminate|intros (e & m & H & _); discriminate].
      * split; [discriminate|intros (_ & f & c & H & _); discriminate].
      * discriminate.
Qed.

(** X11: whatever [fetch_fire_data] returns, other than [None], is the body
    of the response unchanged, and [parse_fire_data] accepts it without an
    exception. *)
Theorem fetched_data_is_parsed (L : pylib) polygon geojson_data :
  fetch_fire_data request polygon = Some (Some geojson_data) ->
  request polygon = Body geojson_data
  /\ exists records, parse_fire_data L geojson_data = Some records.
Proof.
  unfold fetch_fire_data.
  destruct (request polygon) as [|body]; [discriminate|].
  destruct (Py.contains body "error") as [has_error|]; [simpl|discriminate].
  destruct has_error.
  - destruct (Py.getitem body "error") as [error|]; [simpl|discriminate].
    destruct (Py.getitem error "message"); discriminate.
  - destruct (Py.getitem body "features") as [features|] eqn:Hfeat;
      [simpl|discriminate].
    destruct (Py.len features) as [count|] eqn:Hlen; [simpl|discriminate].
    intros [= <-]. split; [reflexivity|].
    destruct body; try discriminate. simpl in Hfeat.
    unfold parse_fire_data.
    assert (Htruthy : Py.truthy (PyDict kv) = true).
    { destruct kv; [discriminate|reflexivity]. }
    rewrite Htruthy. simpl. rewrite Hfeat. simpl.
    destruct features; try discriminate; simpl; eexists; reflexivity.
Qed.

End FetchFacts.

(** ** Further facts on the statistics *)

Lemma SFcompare_antisym a b :
  SFcompare b a = option_map CompOpp (SFcompare a b).
Proof.
  destruct a as [sa|sa| |sa ma ea], b as [sb|sb| |sb mb eb]; simpl; try reflexivity;
    try (destruct sa; reflexivity); try (destruct sb; reflexivity);
    try (destruct sa, sb; reflexivity).
  destruct sa, sb; simpl; try reflexivity.
  - rewrite (Z.compare_antisym ea eb).
    destruct (ea ?= eb)%Z; simpl; try reflexivity.
    rewrite (Pos.compare_cont_antisym ma mb). simpl.
    now destruct (Pos.compare_cont Eq mb ma).
  - rewrite (Z.compare_antisym ea eb).
    destruct (ea ?= eb)%Z; simpl; try reflexivity.
    rewrite (Pos.compare_cont_antisym ma mb). simpl.
    now destruct (Pos.compare_cont Eq mb ma).
Qed.

(** A float at most [y], or NaN, is not greater than [y]. *)
Lemma not_above x y :
  PrimFloat.leb x y = true \/ Prim2SF x = S754_nan -> PrimFloat.ltb y x = false.
Proof.
  rewrite leb_spec, ltb_spec. unfold SFleb, SFltb.
  intros [Hle|Hnan].
  - rewrite (SFcompare_antisym (Prim2SF x) (Prim2SF y)).
    destruct (SFcompare (Prim2SF x) (Prim2SF y)) as [[| |]|]; simpl; congruence.
  - rewrite Hnan. now destruct (Prim2SF y).
Qed.

Lemma filter_length_le {A : Type} (f : A -> bool) (l : list A) :
  (List.length (filter f l) <= List.length l)%nat.
Proof.
  induction l as [|a l IH]; simpl; [lia|]. destruct (f a); simpl; lia.
Qed.

Section AnalysisMoreFacts.

Variable L : pylib.

Lemma large_fire_count_filter fire_records :
  large_fire_count (analyze_data L fire_records)
  = Z.of_nat (List.length
                (filter (fun record => PrimFloat.ltb 1000 (incident_size record))
                        fire_records)).
Proof.
  pose proof (dataframe_sizes L fire_records) as Hdf.
  unfold analyze_data in *. simpl in *. rewrite Hdf. clear Hdf.
  unfold Pandas.sum, Pandas.gt, large_fire_threshold. rewrite sum_mask. simpl.
  f_equal. induction fire_records as [|record records IH]; simpl; [reflexivity|].
  destruct (PrimFloat.ltb 1000 (incident_size record)); simpl; now rewrite IH.
Qed.

(** X12: the data frame has one row per record, in the order of the
    records: the hour of the day of its detection time, between 0 and 23,
    and its size. *)
Theorem dataframe_has_one_row_per_record fire_records :
  List.length (dataframe (analyze_data L fire_records)) = List.length fire_records
  /\ forall i record,
      nth_error fire_records i = Some record ->
      nth_error (dataframe (analyze_data L fire_records)) i
      = Some (hour (detection_time record), incident_size record)
      /\ 0 <= hour (detection_time record) < 24.
Proof.
  unfold analyze_data. simpl. split.
  - rewrite length_combine, !length_map. lia.
  - induction fire_records as [|r records IH]; intros i record Hnth.
    + destruct i; discriminate.
    + destruct i as [|i]; simpl in *.
      * injection Hnth as ->. split; [reflexivity|apply hour_range].
      * now apply IH.
Qed.

(** X13: [most_common_hour] is [None] exactly when there is no record, and
    [large_fire_count] lies between 0 and the number of records. *)
Theorem statistics_bounds fire_records :
  (most_common_hour (analyze_data L fire_records) = None <-> fire_records = [])
  /\ 0 <= large_fire_count (analyze_data L fire_records)
     <= Z.of_nat (List.length fire_records).
Proof.
  split.
  - split.
    + intros Hnone. destruct fire_records as [|r records]; [reflexivity|].
      assert (Hne : hours_of (r :: records) <> []) by discriminate.
      destruct (idxmax_value_counts _ Hne) as (x & Hidx & _).
      pose proof (dataframe_hours L (r :: records)) as Hdf.
      unfold analyze_data in *. simpl in *.
      rewrite map_fst_combine in Hnone. unfold hours_of in Hidx. simpl in Hidx.
      congruence.
    + now intros ->.
  - rewrite large_fire_count_filter.
    pose proof (filter_length_le
                  (fun record => PrimFloat.ltb 1000 (incident_size record))
                  fire_records). lia.
Qed.

(** X14: the threshold is exclusive.  A record whose size is at most 1000
    acres, or is not a number, does not count: taking it out of the list
    leaves [large_fire_count] unchanged, and the count is 0 when every
    record is of that kind. *)
Theorem threshold_is_exclusive before record after :
  PrimFloat.leb (incident_size record) 1000 = true
  \/ Prim2SF (incident_size record) = S754_nan ->
  large_fire_count (analyze_data L (before ++ record :: after))
  = large_fire_count (analyze_data L (before ++ after))
  /\ large_fire_count (analyze_data L [record]) = 0.
Proof.
  intros Hsmall. apply not_above in Hsmall.
  rewrite !large_fire_count_filter, !filter_app. simpl.
  now rewrite Hsmall.
Qed.

End AnalysisMoreFacts.

(** ** Further facts on the correlator *)

Section CorrelatorMoreFacts.

Variables geometry point : Type.
Variable Point : list pyobj -> option point.
Variable contains : geometry -> point -> bool.

Lemma find_app_first {A : Type} (f : A -> bool) (l more : list A) :
  find f (l ++ more)
  = match find f l with
    | Some x => Some x
    | None => find f more
    end.
Proof.
  induction l as [|a l IH]; simpl; [reflexivity|]. now destruct (f a).
Qed.

(** X15: the call raises exactly when shapely rejects the coordinates of
    some point record, wherever it stands in the list and whatever the
    polygon records are: the entries made before it are lost with it. *)
Theorem compare_raises_iff_bad_point public_records wfs_records :
  compare_detection_times geometry point Point contains public_records wfs_records
  = None
  <-> Exists (fun record => Point (coordinates record) = None) public_records.
Proof.
  induction public_records as [|record rest IH].
  - split; [discriminate|]. intros H. inversion H.
  - rewrite compare_cons.
    destruct (Point (coordinates record)) as [fire_point|] eqn:Hp; simpl.
    + destruct (compare_detection_times geometry point Point contains rest
                  wfs_records) as [later|]; simpl.
      * split; [discriminate|].
        intros H. inversion H as [? ? Hbad|? ? Hbad]; subst; [congruence|].
        apply IH in Hbad. discriminate.
      * split; [|reflexivity]. intros _. right. now apply IH.
    + split; [|reflexivity]. intros _. now left.
Qed.

(** X16: point records are handled one by one: the entries for two lists
    of point records put end to end are the entries for the first followed
    by the entries for the second, and the call raises when either does. *)
Theorem compare_concatenation first second wfs_records :
  compare_detection_times geometry point Point contains (first ++ second) wfs_records
  = (first_entries <- compare_detection_times geometry point Point contains
                        first wfs_records ;;
     second_entries <- compare_detection_times geometry point Point contains
                         second wfs_records ;;
     Some (first_entries ++ second_entries)).
Proof.
  induction first as [|record rest IH]; simpl.
  - change (compare_detection_times geometry point Point contains [] wfs_records)
      with (Some (@nil early_record)). simpl.
    now destruct (compare_detection_times geometry point Point contains second
                    wfs_records).
  - rewrite !compare_cons.
    destruct (Point (coordinates record)) as [fire_point|]; simpl; [|reflexivity].
    rewrite IH.
    destruct (compare_detection_times geometry point Point contains rest
                wfs_records) as [later|]; simpl; [|reflexivity].
    destruct (compare_detection_times geometry point Point contains second
                wfs_records) as [last|]; simpl; [|reflexivity].
    now rewrite app_assoc.
Qed.

(** X17: every entry is justified: it is made of a point record of the
    input and of a polygon record of the input that contains its point and
    was detected strictly before it was reported. *)
Theorem entries_are_justified public_records wfs_records entries entry :
  compare_detection_times geometry point Point contains public_records wfs_records
  = Some entries ->
  In entry entries ->
  exists record fire_point wfs,
    In record public_records
    /\ Point (coordinates record) = Some fire_point
    /\ In wfs wfs_records
    /\ contains (polygon wfs) fire_point = true
    /\ wfs_time wfs < detection_time record
    /\ entry = early_entry record wfs.
Proof.
  revert entries.
  induction public_records as [|record rest IH]; intros entries.
  - intros [= <-] [].
  - rewrite compare_cons.
    destruct (Point (coordinates record)) as [fire_point|] eqn:Hp;
      [simpl|discriminate].
    destruct (compare_detection_times geometry point Point contains rest
                wfs_records) as [later|]; [simpl|discriminate].
    intros [= <-] Hin. apply in_app_or in Hin. destruct Hin as [Hin|Hin].
    + unfold first_qualifying_match in Hin.
      destruct (find _ wfs_records) as [wfs|] eqn:Hfind; [|destruct Hin].
      destruct Hin as [<-|[]].
      apply find_some in Hfind. destruct Hfind as [Hwfs Hq].
      unfold detected_earlier in Hq. apply andb_true_iff in Hq.
      destruct Hq as [Hc Ht]. apply Z.ltb_lt in Ht.
      exists record, fire_point, wfs. repeat split; auto; now left.
    + destruct (IH later eq_refl Hin) as (r & p & w & Hr & H).
      exists r, p, w. split; [now right|exact H].
Qed.

(** X18: the number of entries is the number of point records for which at
    least one polygon record contains the point and was detected strictly
    earlier. *)
Theorem entries_count_matched_points public_records wfs_records entries :
  compare_detection_times geometry point Point contains public_records wfs_records
  = Some entries ->
  exists points,
    map (fun record => Point (coordinates record)) public_records = map Some points
    /\ List.length entries
       = List.length
           (filter (fun rp => existsb (detected_earlier geometry point contains
                                         (snd rp) (detection_time (fst rp)))
                                      wfs_records)
                   (combine public_records points)).
Proof.
  revert entries.
  induction public_records as [|record rest IH]; intros entries.
  - intros [= <-]. now exists [].
  - rewrite compare_cons.
    destruct (Point (coordinates record)) as [fire_point|] eqn:Hp;
      [simpl|discriminate].
    destruct (compare_detection_times geometry point Point contains rest
                wfs_records) as [later|]; [simpl|discriminate].
    intros [= <-]. destruct (IH later eq_refl) as (points & Hpts & Hlen).
    exists (fire_point :: points). split; [simpl; now rewrite Hp, Hpts|].
    rewrite length_app, Hlen. simpl. unfold first_qualifying_match.
    destruct (find _ wfs_records) as [wfs|] eqn:Hfind.
    + apply find_some in Hfind. destruct Hfind as [Hin Hq].
      assert (Hex : existsb (detected_earlier geometry point contains fire_point
                               (detection_time record)) wfs_records = true).
      { apply existsb_exists. now exists wfs. }
      now rewrite Hex.
    + assert (Hex : existsb (detected_earlier geometry point contains fire_point
                               (detection_time record)) wfs_records = false).
      { destruct (existsb _ wfs_records) eqn:E; [|reflexivity].
        apply existsb_exists in E. destruct E as [w [Hw Hq]].
        now rewrite (find_none _ _ Hfind w Hw) in Hq. }
      now rewrite Hex.
Qed.

(** X19: polygon records added at the end of the list never change an
    entry already made: every entry obtained without them is still
    obtained with them, and no entry is lost. *)
Theorem more_polygons_keep_entries public_records wfs_records more entries :
  compare_detection_times geometry point Point contains public_records wfs_records
  = Some entries ->
  exists entries',
    compare_detection_times geometry point Point contains public_records
      (wfs_records ++ more) = Some entries'
    /\ incl entries entries'
    /\ (List.length entries <= List.length entries')%nat.
Proof.
  revert entries.
  induction public_records as [|record rest IH]; intros entries.
  - intros [= <-]. exists []. repeat split; [apply incl_refl|lia].
  - rewrite !compare_cons.
    destruct (Point (coordinates record)) as [fire_point|]; [simpl|discriminate].
    destruct (compare_detection_times geometry point Point contains rest
                wfs_records) as [later|]; [simpl|discriminate].
    intros [= <-]. destruct (IH later eq_refl) as (later' & -> & Hincl & Hlen).
    simpl. eexists. split; [reflexivity|].
    unfold first_qualifying_match. rewrite find_app_first.
    destruct (find _ wfs_records) as [wfs|]; simpl.
    + split; [|lia]. intros e [<-|He]; [now left|right; now apply Hincl].
    + split.
      * intros e He. apply in_or_app. right. now apply Hincl.
      * rewrite length_app. lia.
Qed.

End CorrelatorMoreFacts.

(** ** The main flow *)

Lemma subscriptable_is_truthy (o : pyobj) (k : string) (v : pyobj) :
  Py.getitem o k = Some v -> Py.truthy o = true.
Proof.
  destruct o; try discriminate. destruct kv; [discriminate|reflexivity].
Qed.

Lemma nonempty_not_nil {A : Type} (l : list A) : nonempty l = true -> l <> [].
Proof. destruct l; [discriminate|discriminate]. Qed.

Section MainFacts.

Variable L : pylib.
Variable request : pyobj -> response.
Variable visualize_data : analysis -> option unit.
Variables geometry point : Type.
Variable shape : pyobj -> option geometry.
Variable fromisoformat_utc : string -> option datetime.
Variable Point : list pyobj -> option point.
Variable contains : geometry -> point -> bool.

(** What a run that reaches the end of [main] went through. *)
Lemma main_finished bpoly_file wfs_file r :
  main L request visualize_data geometry point shape fromisoformat_utc Point
       contains bpoly_file wfs_file = Finished r ->
  exists polygon public_geojson public_records wfs_geojson features count wfs_records,
    bpoly_file = Some polygon
    /\ Py.contains polygon "rings" = Some true
    /\ fetch_fire_data request polygon = Some (Some public_geojson)
    /\ parse_fire_data L public_geojson = Some public_records
    /\ wfs_file = Some wfs_geojson
    /\ Py.getitem wfs_geojson "features" = Some features
    /\ Py.len features = Some count
    /\ parse_wfs_data geometry shape fromisoformat_utc wfs_geojson = Some wfs_records
    /\ ((nonempty public_records && nonempty wfs_records = false
         /\ r = InsufficientData)
        \/ (nonempty public_records && nonempty wfs_records = true
            /\ exists early_detected,
                compare_detection_times geometry point Point contains
                  public_records wfs_records = Some early_detected
                /\ r = if nonempty early_detected
                       then EarlyDetected early_detected
                       else NoEarlierDetection)).
Proof.
  unfold main, or_crash. intros H.
  destruct bpoly_file as [polygon|]; [|discriminate].
  destruct (Py.contains polygon "rings") as [[|]|] eqn:Hrings;
    cbv beta iota in H; try discriminate.
  simpl negb in H. cbv beta iota in H.
  destruct (fetch_fire_data request polygon) as [[public_geojson|]|] eqn:Hfetch;
    try discriminate.
  destruct (parse_fire_data L public_geojson) as [public_records|] eqn:Hparse;
    [|discriminate].
  destruct (if nonempty public_records
            then visualize_data (analyze_data L public_records)
            else Some tt) as [shown|]; [|discriminate].
  cbv zeta in H.
  destruct wfs_file as [wfs_geojson|]; [|discriminate].
  destruct (Py.getitem wfs_geojson "features") as [features|] eqn:Hfeat;
    [|discriminate].
  simpl bind in H.
  destruct (Py.len features) as [count|] eqn:Hlen; [|discriminate].
  rewrite (subscriptable_is_truthy _ _ _ Hfeat) in H.
  destruct (parse_wfs_data geometry shape fromisoformat_utc wfs_geojson)
    as [wfs_records|] eqn:Hwfs; [|discriminate].
  exists polygon, public_geojson, public_records, wfs_geojson, features, count,
    wfs_records.
  repeat (split; [reflexivity || assumption|]).
  destruct (nonempty public_records && nonempty wfs_records) eqn:Hboth.
  - right. split; [reflexivity|].
    destruct (compare_detection_times geometry point Point contains
                public_records wfs_records) as [early_detected|]; [|discriminate].
    exists early_detected. split; [reflexivity|].
    destruct (nonempty early_detected); now injection H as <-.
  - left. split; [reflexivity|]. now injection H as <-.
Qed.

(** X20: the exit codes.  [main] exits with 1 exactly when the polygon file
    cannot be loaded, with 2 exactly when the polygon has no ["rings"]
    member, with 0 exactly when [fetch_fire_data] returned [None]; it never
    exits with another code. *)
Theorem main_exit_codes bpoly_file wfs_file :
  (main L request visualize_data geometry point shape fromisoformat_utc Point
        contains bpoly_file wfs_file = Exit 1
   <-> bpoly_file = None)
  /\ (main L request visualize_data geometry point shape fromisoformat_utc Point
           contains bpoly_file wfs_file = Exit 2
      <-> exists polygon,
            bpoly_file = Some polygon
            /\ Py.contains polygon "rings" = Some false)
  /\ (main L request visualize_data geometry point shape fromisoformat_utc Point
           contains bpoly_file wfs_file = Exit 0
      <-> exists polygon,
            bpoly_file = Some polygon
            /\ Py.contains polygon "rings" = Some true
            /\ fetch_fire_data request polygon = Some None)
  /\ (forall code,
         main L request visualize_data geometry point shape fromisoformat_utc Point
              contains bpoly_file wfs_file = Exit code ->
         code = 0 \/ code = 1 \/ code = 2).
Proof.
  unfold main, or_crash.
  destruct bpoly_file as [polygon|].
  2:{ repeat split; try discriminate; try tauto.
      - intros (p & H & _). discriminate.
      - intros (p & H & _). discriminate.
      - intros code [= <-]. tauto. }
  destruct (Py.contains polygon "rings") as [[|]|] eqn:Hrings; simpl negb;
    cbv beta iota.
  - destruct (fetch_fire_data request polygon) as [[public_geojson|]|] eqn:Hfetch.
    + assert (Htail : forall code,
                 match parse_fire_data L public_geojson with
                 | Some public_records =>
                     match (if nonempty public_records
                            then visualize_data (analyze_data L public_records)
                            else Some tt) with
                     | Some _ =>
                         let wfs_geojson :=
                           match wfs_file with
                           | Some data => data
                           | None => PyNone
                           end in
                         match (features <- Py.getitem wfs_geojson "features" ;;
                                Py.len features) with
                         | Some _ =>
                             if Py.truthy wfs_geojson
                             then
                               match parse_wfs_data geometry shape fromisoformat_utc
                                       wfs_geojson with
                               | Some wfs_records =>
                                   if nonempty public_records && nonempty wfs_records
                                   then
                                     match compare_detection_times geometry point
                                             Point contains public_records
                                             wfs_records with
                                     | Some early_detected =>
                                         if nonempty early_detected
                                         then Finished (EarlyDetected early_detected)
                                         else Finished NoEarlierDetection
                                     | None => Crash
                                     end
                                   else Finished InsufficientData
                               | None => Crash
                               end
                             else Finished NoWfsData
                         | None => Crash
                         end
                     | None => Crash
                     end
                 | None => Crash
                 end <> Exit code).
      { intros code. cbv zeta. unfold bind.
        repeat match goal with
               | |- context [match ?x with _ => _ end] => destruct x
               end; discriminate. }
      repeat split; try (intros H; exfalso; revert H; apply Htail).
      * discriminate.
      * intros (p & [= <-] & H). congruence.
      * intros (p & [= <-] & _ & H). congruence.
      * intros code H. exfalso. revert H. apply Htail.
    + repeat split; try discriminate; try tauto.
      * intros (p & [= <-] & H). congruence.
      * intros _. now exists polygon.
      * intros code [= <-]. tauto.
    + repeat split; try discriminate.
      * intros (p & [= <-] & H). congruence.
      * intros (p & [= <-] & _ & H). congruence.
  - repeat split; try discriminate; try tauto.
    + intros _. now exists polygon.
    + intros (p & [= <-] & H & _). congruence.
    + intros code [= <-]. tauto.
  - repeat split; try discriminate.
    + intros (p & [= <-] & H). congruence.
    + intros (p & [= <-] & H & _). congruence.
Qed.

(** X21: [main] reaches its end only when the satellite file was loaded and
    is an object whose ["features"] member has a length.  When the file
    cannot be loaded (or holds null) the run never reaches its end, and
    the report of missing satellite data is never made: the length of the
    features is printed first, which raises. *)
Theorem main_never_reports_missing_wfs bpoly_file wfs_file :
  (forall r,
      main L request visualize_data geometry point shape fromisoformat_utc Point
           contains bpoly_file wfs_file = Finished r ->
      r <> NoWfsData
      /\ exists kv features count,
          wfs_file = Some (PyDict kv)
          /\ Py.dict_lookup kv "features" = Some features
          /\ Py.len features = Some count)
  /\ (wfs_file = None \/ wfs_file = Some PyNone ->
      forall r,
        main L request visualize_data geometry point shape fromisoformat_utc Point
             contains bpoly_file wfs_file <> Finished r).
Proof.
  assert (Hfin : forall r,
             main L request visualize_data geometry point shape fromisoformat_utc
                  Point contains bpoly_file wfs_file = Finished r ->
             r <> NoWfsData
             /\ exists kv features count,
                 wfs_file = Some (PyDict kv)
                 /\ Py.dict_lookup kv "features" = Some features
                 /\ Py.len features = Some count).
  { intros r H. apply main_finished in H.
    destruct H as (polygon & pg & pr & wfs_geojson & features & count & wr
                   & _ & _ & _ & _ & -> & Hfeat & Hlen & _ & Hr).
    split.
    - destruct Hr as [[_ ->]|[_ (early & _ & ->)]]; [discriminate|].
      destruct (nonempty early); discriminate.
    - destruct wfs_geojson; try discriminate.
      exists kv, features, count. repeat split; assumption. }
  split; [exact Hfin|].
  intros Hnone r H. apply Hfin in H.
  destruct H as (_ & kv & features & count & Heq & _).
  destruct Hnone as [-> | ->]; discriminate.
Qed.

(** X22: when [main] reports fires first detected by the satellites, the
    list is not empty, it is the result of [compare_detection_times] on the
    parsed incident feed and the parsed satellite feed, and each of its
    entries has a satellite detection time strictly before the official
    time. *)
Theorem main_reported_fires bpoly_file wfs_file fires :
  main L request visualize_data geometry point shape fromisoformat_utc Point
       contains bpoly_file wfs_file = Finished (EarlyDetected fires) ->
  fires <> []
  /\ Forall (fun entry => wfs_detection_time entry < official_time entry) fires
  /\ exists polygon public_geojson public_records wfs_geojson wfs_records,
      bpoly_file = Some polygon
      /\ fetch_fire_data request polygon = Some (Some public_geojson)
      /\ parse_fire_data L public_geojson = Some public_records
      /\ wfs_file = Some wfs_geojson
      /\ parse_wfs_data geometry shape fromisoformat_utc wfs_geojson
         = Some wfs_records
      /\ compare_detection_times geometry point Point contains
           public_records wfs_records = Some fires.
Proof.
  intros H. apply main_finished in H.
  destruct H as (polygon & pg & pr & wfs_geojson & features & count & wr
                 & Hb & _ & Hfetch & Hparse & Hw & _ & _ & Hwfs & Hr).
  destruct Hr as [[_ Hr]|[_ (early & Hcmp & Hr)]]; [discriminate|].
  destruct (nonempty early) eqn:Hne; [|discriminate].
  injection Hr as ->.
  split; [now apply nonempty_not_nil|]. split.
  - exact (entries_are_strictly_earlier geometry point Point contains pr wr early Hcmp).
  - exists polygon, pg, pr, wfs_geojson, wr. repeat split; assumption.
Qed.

End MainFacts.

(** ** Witnesses of the further properties *)

(** Witness of X2: the features given as an object. *)
Lemma features_of_wrong_kind_give_nothing_witness :
  parse_fire_data sample_lib
    (PyDict [("features"%string, PyDict [("first"%string, PyInt 1)])])
  = Some [].
Proof.
  apply (features_of_wrong_kind_give_nothing sample_lib
           [("features"%string, PyDict [("first"%string, PyInt 1)])]
           (PyDict [("first"%string, PyInt 1)])).
  - reflexivity.
  - left. eexists. reflexivity.
Defined.

(** Witness of X5: a timestamp given as a text. *)
Lemma unusable_timestamp_is_skipped_witness :
  accepted sample_lib Sample.text_timestamp_feature = [].
Proof.
  apply (proj1 (unusable_timestamp_is_skipped sample_lib
                  Sample.text_timestamp_feature
                  (PyDict [("FireDiscoveryDateTime"%string, PyStr "2024-07-04");
                           ("IncidentSize"%string, PyFloat 50)])
                  (PyStr "2024-07-04") eq_refl eq_refl I)).
Defined.

Lemma undated_detection_is_missing :
  missing_field Sample.undated_detection "oldest_detection".
Proof.
  intros properties value Hp Hv.
  vm_compute in Hp. injection Hp as <-.
  vm_compute in Hv. now injection Hv as <-.
Defined.

(** Witness of X8: a dated detection followed by an undated one. *)
Lemma wfs_feature_without_detection_is_skipped_witness :
  parse_wfs_data Shapely.geometry Sample.shape Sample.fromisoformat_utc
    (Sample.collection [Sample.detection_at_10; Sample.undated_detection])
  = Some [Sample.box_at Sample.t10].
Proof.
  etransitivity.
  - exact (proj1 (wfs_feature_without_detection_is_skipped
                    Shapely.geometry Sample.shape Sample.fromisoformat_utc
                    [("type"%string, PyStr "FeatureCollection")]
                    [Sample.detection_at_10] Sample.undated_detection []
                    undated_detection_is_missing)).
  - vm_compute. reflexivity.
Defined.

(** Witness of X11: the answer of the sample service. *)
Lemma fetched_data_is_parsed_witness :
  Sample.service Sample.bounding_polygon
  = Body (Sample.collection [Sample.good_feature (PyFloat 50)])
  /\ exists records,
      parse_fire_data sample_lib (Sample.collection [Sample.good_feature (PyFloat 50)])
      = Some records.
Proof.
  apply (fetched_data_is_parsed Sample.service sample_lib Sample.bounding_polygon
           (Sample.collection [Sample.good_feature (PyFloat 50)])).
  vm_compute. reflexivity.
Defined.

(** Witness of X14: a fire of exactly 1000 acres between two others. *)
Lemma threshold_is_exclusive_witness :
  large_fire_count
    (analyze_data sample_lib
       ([Sample.incident 5 2000] ++ Sample.incident 5 1000 :: [Sample.incident 9 300]))
  = large_fire_count
      (analyze_data sample_lib ([Sample.incident 5 2000] ++ [Sample.incident 9 300]))
  /\ large_fire_count (analyze_data sample_lib [Sample.incident 5 1000]) = 0.
Proof.
  apply (threshold_is_exclusive sample_lib
           [Sample.incident 5 2000] (Sample.incident 5 1000) [Sample.incident 9 300]).
  left. vm_compute. reflexivity.
Defined.

Lemma sample_entries :
  compare_detection_times Shapely.geometry Shapely.coord Shapely.Point
    Shapely.contains
    [Sample.inside_fire; Sample.edge_fire] [Sample.box_at Sample.t10]
  = Some [early_entry Sample.inside_fire (Sample.box_at Sample.t10)].
Proof. vm_compute. reflexivity. Defined.

(** Witness of X17: the entry of the fire inside the box. *)
Lemma entries_are_justified_witness :
  exists record fire_point wfs,
    In record [Sample.inside_fire; Sample.edge_fire]
    /\ Shapely.Point (coordinates record) = Some fire_point
    /\ In wfs [Sample.box_at Sample.t10]
    /\ Shapely.contains (polygon wfs) fire_point = true
    /\ wfs_time wfs < detection_time record
    /\ early_entry Sample.inside_fire (Sample.box_at Sample.t10)
       = early_entry record wfs.
Proof.
  apply (entries_are_justified Shapely.geometry Shapely.coord Shapely.Point
           Shapely.contains _ _ _ _ sample_entries).
  left. reflexivity.
Defined.

(** Witness of X18: one of the two sample fires is matched. *)
Lemma entries_count_matched_points_witness :
  exists points,
    map (fun record => Shapely.Point (coordinates record))
        [Sample.inside_fire; Sample.edge_fire] = map Some points
    /\ List.length [early_entry Sample.inside_fire (Sample.box_at Sample.t10)]
       = List.length
           (filter (fun rp =>
                      existsb (detected_earlier Shapely.geometry Shapely.coord
                                 Shapely.contains (snd rp) (detection_time (fst rp)))
                              [Sample.box_at Sample.t10])
                   (combine [Sample.inside_fire; Sample.edge_fire] points)).
Proof.
  exact (entries_count_matched_points Shapely.geometry Shapely.coord Shapely.Point
           Shapely.contains _ _ _ sample_entries).
Defined.

(** Witness of X19: a later detection added after the 10:00 one. *)
Lemma more_polygons_keep_entries_witness :
  exists entries',
    compare_detection_times Shapely.geometry Shapely.coord Shapely.Point
      Shapely.contains [Sample.inside_fire; Sample.edge_fire]
      ([Sample.box_at Sample.t10] ++ [Sample.box_at Sample.t14]) = Some entries'
    /\ incl [early_entry Sample.inside_fire (Sample.box_at Sample.t10)] entries'
    /\ (List.length [early_entry Sample.inside_fire (Sample.box_at Sample.t10)]
        <= List.length entries')%nat.
Proof.
  exact (more_polygons_keep_entries Shapely.geometry Shapely.coord Shapely.Point
           Shapely.contains _ _ [Sample.box_at Sample.t14] _ sample_entries).
Defined.

Lemma sample_run :
  main sample_lib Sample.service Sample.display Shapely.geometry Shapely.coord
       Sample.shape Sample.fromisoformat_utc Shapely.Point Shapely.contains
       (Some Sample.bounding_polygon)
       (Some (Sample.collection [Sample.detection_at_10]))
  = Finished (EarlyDetected
                [early_entry Sample.inside_fire (Sample.box_at Sample.t10)]).
Proof. vm_compute. reflexivity. Defined.

(** Witness of X22: a run on the sample files and the sample service. *)
Lemma main_reported_fires_witness :
  [early_entry Sample.inside_fire (Sample.box_at Sample.t10)] <> []
  /\ Forall (fun entry => wfs_detection_time entry < official_time entry)
            [early_entry Sample.inside_fire (Sample.box_at Sample.t10)].
Proof.
  destruct (main_reported_fires sample_lib Sample.service Sample.display
              Shapely.geometry Shapely.coord Sample.shape Sample.fromisoformat_utc
              Shapely.Point Shapely.contains _ _ _ sample_run) as (Hne & Hall & _).
  now split.
Defined.

(** What a run makes of a satellite file that cannot be loaded, and of a
    polygon file that cannot be loaded. *)
Example run_without_satellite_file :
  main sample_lib Sample.service Sample.display Shapely.geometry Shapely.coord
       Sample.shape Sample.fromisoformat_utc Shapely.Point Shapely.contains
       (Some Sample.bounding_polygon) None
  = Crash
  /\ main sample_lib Sample.service Sample.display Shapely.geometry Shapely.coord
          Sample.shape Sample.fromisoformat_utc Shapely.Point Shapely.contains
          None (Some (Sample.collection [Sample.detection_at_10]))
     = Exit 1.
Proof. split; vm_compute; reflexivity. Qed.
